(** * InstrumentSandbox: the HEMT power-supply helpers

    A shallow embedding of the helper cell of
    [src/bcqthubrevamp/experiments/InstrumentSandbox.ipynb]:
    [ramp_voltage], [reset_HEMT_settings], [turn_on_HEMTS] and
    [turn_off_HEMTS].

    Numbers.  Python floats are modelled by exact rationals ([Q]): every
    binary64 value is a rational, and the additions, the division and the
    multiplications that [ramp_voltage] and [numpy.arange] perform on them
    are taken without rounding.  Statements about voltages therefore use
    [Qeq] ([==]) and are statements about the exact values; what binary64
    rounding adds to or takes from them is not part of this development.

    Effects.  The notebook talks to one power supply through driver
    methods.  The driver class is not part of the notebook; it is an
    abstract collaborator ([exec]) that answers each command with a reply
    or an exception and moves to a new device state.  Everything the code
    does to the outside world (driver calls, [print], [time.sleep]) is
    recorded, in order, in a log. *)

From Stdlib Require Import ZArith QArith Qround Qabs List String Bool Lia Lqa.
Import ListNotations.

Local Open Scope string_scope.
Local Open Scope list_scope.
Local Open Scope Q_scope.

(** ** Exceptions *)

(** Why a call raised [TypeError]. *)
Inductive type_error : Type :=
| UnexpectedKeyword (f k : string)
| MultipleValues (f k : string)
| TooManyPositional (f : string)
| MissingArguments (f : string) (names : list string)
| BadOperand (name : string).

(** The exceptions that can leave the helper cell.  [DeviceError cls] is an
    exception of class [cls] raised inside a driver method. *)
Inductive exn : Type :=
| TypeError (why : type_error)
| ZeroDivisionError
| ValueError
| NameError (name : string)
| AssertionError
| DeviceError (cls : string).

Definition exn_class (e : exn) : string :=
  match e with
  | TypeError _ => "TypeError"
  | ZeroDivisionError => "ZeroDivisionError"
  | ValueError => "ValueError"
  | NameError _ => "NameError"
  | AssertionError => "AssertionError"
  | DeviceError cls => cls
  end.

(** ** numpy.arange on exact numbers *)

(** [numpy.arange(start, stop, step)] for Python scalars: the quotient
    [(stop - start) / step] is formed first (a zero [step] raises
    [ZeroDivisionError] there), its ceiling is the length (a non-positive
    ceiling gives the empty array), and element [i] is [start + i * step]. *)
Definition arange_length (start stop step : Q) : nat :=
  Z.to_nat (Qceiling ((stop - start) / step)).

Definition arange_item (start step : Q) (i : nat) : Q :=
  start + inject_Z (Z.of_nat i) * step.

Definition arange (start stop step : Q) : exn + list Q :=
  if Qeq_bool step 0 then inl ZeroDivisionError
  else inr (map (arange_item start step)
                (seq 0 (arange_length start stop step))).

(** The first statement of [ramp_voltage]:
<<
    voltages = np.arange(v_start, v_stop + v_step, v_step) \
                if v_stop >= v_start \
                else np.arange(v_start, v_stop - v_step, -v_step)
>> *)
Definition ramp_setpoints (v_start v_stop v_step : Q) : exn + list Q :=
  if Qle_bool v_start v_stop
  then arange v_start (v_stop + v_step) v_step
  else arange v_start (v_stop - v_step) (- v_step).

(** ** Python values *)

(** The values that cross the boundary of the helper cell: what the driver
    methods return and what the call sites pass. *)
Inductive pyval : Type :=
| PyNone
| PyBool (b : bool)
| PyInt (z : Z)
| PyFloat (q : Q)
| PyDevice.

(** [x is False]. *)
Definition py_is_False (x : pyval) : bool :=
  match x with
  | PyBool false => true
  | _ => false
  end.

(** [x == 0]. *)
Definition py_eq_zero (x : pyval) : bool :=
  match x with
  | PyBool b => negb b
  | PyInt z => (z =? 0)%Z
  | PyFloat q => Qeq_bool q 0
  | PyNone | PyDevice => false
  end.

(** ** The power supply as a collaborator *)

(** The driver methods the cell calls, with their arguments. *)
Inductive command : Type :=
| set_channel_voltage (ch : Z) (voltage : Q)
| get_channel_current (ch : Z)
| get_channel_voltage (ch : Z)
| set_overcurrent (ch : Z) (OCP : Q)
| get_output
| set_output (ch : Z) (output : bool).

(** What the cell does to the outside world. [EvCall c r] is a driver call
    together with what it answered; [EvPrintSetting] is the progress line
    that [ramp_voltage] prints for each setpoint (it shows the channel and
    the voltage to three decimals), [EvPrintNewline] the bare [print()]
    after the loop. *)
Inductive event : Type :=
| EvCall (c : command) (r : exn + pyval)
| EvPrintSetting (channel : Z) (v : Q)
| EvPrintNewline
| EvSleep (delay : Q).

(** ** Call binding *)

(** A [def] header: the function's name and its parameters, each with its
    default value if it has one. *)
Record signature : Type := {
  fn_name : string;
  fn_params : list (string * option pyval)
}.

Definition env : Type := list (string * pyval).

Fixpoint lookup (k : string) (e : env) : option pyval :=
  match e with
  | [] => None
  | (k', v) :: rest => if String.eqb k k' then Some v else lookup k rest
  end.

Definition mem (k : string) (ks : list string) : bool :=
  existsb (String.eqb k) ks.

(** Keyword arguments: a name that is no parameter is refused, and so is a
    name that already has a value. *)
Fixpoint bind_keywords (f : string) (names : list string) (bound : env)
         (kwargs : list (string * pyval)) : exn + env :=
  match kwargs with
  | [] => inr bound
  | (k, v) :: rest =>
      if negb (mem k names) then inl (TypeError (UnexpectedKeyword f k))
      else match lookup k bound with
           | Some _ => inl (TypeError (MultipleValues f k))
           | None => bind_keywords f names (bound ++ [(k, v)]) rest
           end
  end.

(** Parameters still without a value take their default; those without a
    default are reported missing. *)
Fixpoint fill_defaults (params : list (string * option pyval)) (bound : env)
  : list string * env :=
  match params with
  | [] => ([], [])
  | (name, dflt) :: rest =>
      let (missing, e) := fill_defaults rest bound in
      match lookup name bound, dflt with
      | Some v, _ => (missing, (name, v) :: e)
      | None, Some d => (missing, (name, d) :: e)
      | None, None => (name :: missing, e)
      end
  end.

(** Binding the arguments of a call of [f] to the parameters of [f], as
    Python does for a function without variadic parameters: positional
    arguments fill the parameters from the left, keyword arguments are
    matched by name, then too many positional arguments and parameters left
    without a value are reported, in that order. *)
Definition bind_args (sg : signature) (args : list pyval)
           (kwargs : list (string * pyval)) : exn + env :=
  let names := map fst (fn_params sg) in
  match bind_keywords (fn_name sg) names (combine names args) kwargs with
  | inl e => inl e
  | inr bound =>
      if (List.length names <? List.length args)%nat
      then inl (TypeError (TooManyPositional (fn_name sg)))
      else match fill_defaults (fn_params sg) bound with
           | ([], e) => inr e
           | (missing, _) =>
               inl (TypeError (MissingArguments (fn_name sg) missing))
           end
  end.

(** [def ramp_voltage(psu, channel, v_start, v_stop, v_step=0.01, delay=1)] *)
Definition sig_ramp_voltage : signature :=
  {| fn_name := "ramp_voltage";
     fn_params := [("psu", None); ("channel", None); ("v_start", None);
                   ("v_stop", None); ("v_step", Some (PyFloat 0.01));
                   ("delay", Some (PyInt 1))] |}.

(** [def reset_HEMT_settings(HEMT_PSU, output)] *)
Definition sig_reset_HEMT_settings : signature :=
  {| fn_name := "reset_HEMT_settings";
     fn_params := [("HEMT_PSU", None); ("output", None)] |}.

(** The typed functions below take an integer channel and numeric voltages;
    these conversions are where a bound argument enters them.  A value of
    another type is refused at this border; no call in the notebook gets
    that far. *)
Definition as_number (name : string) (v : pyval) : exn + Q :=
  match v with
  | PyInt z => inr (inject_Z z)
  | PyFloat q => inr q
  | PyBool b => inr (if b then 1 else 0)
  | PyNone | PyDevice => inl (TypeError (BadOperand name))
  end.

Definition as_channel (name : string) (v : pyval) : exn + Z :=
  match v with
  | PyInt z => inr z
  | _ => inl (TypeError (BadOperand name))
  end.

Definition arg (e : env) (name : string) : pyval :=
  match lookup name e with
  | Some v => v
  | None => PyNone
  end.

(** ** The cell's functions *)

(** How a computation ends: with a value or with an exception. *)
Inductive outcome (A : Type) : Type :=
| Return (a : A)
| Raise (e : exn).
Arguments Return {A} a.
Arguments Raise {A} e.

Section Cell.

(** The device: its states and how it answers a command. *)
Variable D : Type.
Variable exec : D -> command -> (exn + pyval) * D.

Record world : Type := World { dev : D; log : list event }.

(** Computations that may raise and that act on the world. *)
Definition M (A : Type) : Type := world -> outcome A * world.

Definition ret {A} (a : A) : M A := fun w => (Return a, w).

Definition raise {A} (e : exn) : M A := fun w => (Raise e, w).

Definition bind {A B} (m : M A) (k : A -> M B) : M B :=
  fun w =>
    match m w with
    | (Return a, w') => k a w'
    | (Raise e, w') => (Raise e, w')
    end.

Definition lift {A} (r : exn + A) : M A :=
  match r with
  | inl e => raise e
  | inr a => ret a
  end.

Definition emit (ev : event) : M unit :=
  fun w => (Return tt, World (dev w) (log w ++ [ev])).

(** A driver call: the device answers, the call is logged with its
    answer, and an exception raised by the driver propagates. *)
Definition call (c : command) : M pyval :=
  fun w =>
    let (r, d') := exec (dev w) c in
    let w' := World d' (log w ++ [EvCall c r]) in
    match r with
    | inl e => (Raise e, w')
    | inr v => (Return v, w')
    end.

(** [time.sleep(delay)]; a negative length raises [ValueError]. *)
Definition sleep (delay : Q) : M unit :=
  if Qle_bool 0 delay then emit (EvSleep delay) else raise ValueError.

(** [assert cond] *)
Definition assert (cond : bool) : M unit :=
  if cond then ret tt else raise AssertionError.

Notation "x <- m ;; k" := (bind m (fun x => k))
  (at level 61, m at next level, right associativity).
Notation "m ;; k" := (bind m (fun _ => k))
  (at level 61, right associativity).

(** The loop of [ramp_voltage]:
<<
  for v in voltages:
      print(...)        # progress line: channel and voltage
      psu.set_channel_voltage(channel, v)
      cur = psu.get_channel_current(channel)
      data.append((v, cur))
      time.sleep(delay)
>> *)
Fixpoint ramp_loop (channel : Z) (delay : Q) (voltages : list Q)
         (data : list (Q * pyval)) : M (list (Q * pyval)) :=
  match voltages with
  | [] => ret data
  | v :: rest =>
      emit (EvPrintSetting channel v) ;;
      call (set_channel_voltage channel v) ;;
      cur <- call (get_channel_current channel) ;;
      let data := data ++ [(v, cur)] in
      sleep delay ;;
      ramp_loop channel delay rest data
  end.

Definition ramp_voltage (channel : Z) (v_start v_stop v_step delay : Q)
  : M (list (Q * pyval)) :=
  voltages <- lift (ramp_setpoints v_start v_stop v_step) ;;
  data <- ramp_loop channel delay voltages [] ;;
  emit EvPrintNewline ;;
  ret data.

(** A call of [ramp_voltage] with positional arguments [args] and keyword
    arguments [kwargs].  The model has one device, so
    the value bound to [psu] stands for the handle on it. *)
Definition call_ramp_voltage (args : list pyval)
           (kwargs : list (string * pyval)) : M (list (Q * pyval)) :=
  e <- lift (bind_args sig_ramp_voltage args kwargs) ;;
  channel <- lift (as_channel "channel" (arg e "channel")) ;;
  v_start <- lift (as_number "v_start" (arg e "v_start")) ;;
  v_stop <- lift (as_number "v_stop" (arg e "v_stop")) ;;
  v_step <- lift (as_number "v_step" (arg e "v_step")) ;;
  delay <- lift (as_number "delay" (arg e "delay")) ;;
  ramp_voltage channel v_start v_stop v_step delay.

(** The body of [reset_HEMT_settings(HEMT_PSU, output)]; [output] is not
    used by it. *)
Definition reset_HEMT_settings (output : pyval) : M unit :=
  call (set_overcurrent 1 0.005) ;;
  call (set_overcurrent 2 0.05) ;;
  status <- call get_output ;;
  assert (py_is_False status) ;;
  call (set_channel_voltage 1 0) ;;
  call (set_channel_voltage 2 0) ;;
  v1 <- call (get_channel_voltage 1) ;;
  assert (py_eq_zero v1) ;;
  v2 <- call (get_channel_voltage 2) ;;
  assert (py_eq_zero v2) ;;
  call (set_output 1 true) ;;
  call (set_output 2 true) ;;
  ret tt.

(** A call of [reset_HEMT_settings]. *)
Definition call_reset_HEMT_settings (args : list pyval)
           (kwargs : list (string * pyval)) : M unit :=
  e <- lift (bind_args sig_reset_HEMT_settings args kwargs) ;;
  reset_HEMT_settings (arg e "output").

(** [turn_on_HEMTS(HEMT_PSU)].  The third statement evaluates the name
    [ch1_data], which nothing in the notebook defines. *)
Definition turn_on_HEMTS (HEMT_PSU : pyval) : M unit :=
  call_reset_HEMT_settings [] [] ;;
  call_ramp_voltage [HEMT_PSU]
    [("ch", PyInt 1); ("v_start", PyInt 0); ("v_stop", PyFloat 1.1)] ;;
  @raise unit (NameError "ch1_data") ;;
  call_ramp_voltage [HEMT_PSU]
    [("ch", PyInt 2); ("v_start", PyInt 0); ("v_stop", PyFloat 0.7)] ;;
  ret tt.

(** [turn_off_HEMTS(HEMT_PSU)] *)
Definition turn_off_HEMTS (HEMT_PSU : pyval) : M unit :=
  call_ramp_voltage [HEMT_PSU]
    [("ch", PyInt 1); ("v_start", PyInt 0); ("v_stop", PyFloat 1.1)] ;;
  call_ramp_voltage [HEMT_PSU]
    [("ch", PyInt 2); ("v_start", PyInt 0); ("v_stop", PyFloat 0.7)] ;;
  call_reset_HEMT_settings [] [] ;;
  ret tt.

End Cell.

Arguments World {D} dev log.
Arguments dev {D} w.
Arguments log {D} w.

(** ** A bench double for the power supply *)

(** A two-channel supply across a 100 ohm load that remembers what it was
    told, counts the calls it received and, when [mock_fail_at] is set,
    raises on the call with that number (counted from 0). *)
Record mock_psu : Type := MockPSU {
  mock_v1 : Q;
  mock_v2 : Q;
  mock_output : bool;
  mock_calls : nat;
  mock_fail_at : option nat
}.

Definition mock_voltage (d : mock_psu) (ch : Z) : Q :=
  if (ch =? 1)%Z then mock_v1 d else mock_v2 d.

Definition mock_answer (d : mock_psu) (c : command) : pyval * mock_psu :=
  match c with
  | set_channel_voltage ch v =>
      (PyNone,
       if (ch =? 1)%Z
       then MockPSU v (mock_v2 d) (mock_output d) (mock_calls d) (mock_fail_at d)
       else MockPSU (mock_v1 d) v (mock_output d) (mock_calls d) (mock_fail_at d))
  | get_channel_current ch => (PyFloat (mock_voltage d ch / 100), d)
  | get_channel_voltage ch => (PyFloat (mock_voltage d ch), d)
  | set_overcurrent _ _ => (PyNone, d)
  | get_output => (PyBool (mock_output d), d)
  | set_output _ b =>
      (PyNone,
       MockPSU (mock_v1 d) (mock_v2 d) b (mock_calls d) (mock_fail_at d))
  end.

Definition mock_exec (d : mock_psu) (c : command)
  : (exn + pyval) * mock_psu :=
  let d1 := MockPSU (mock_v1 d) (mock_v2 d) (mock_output d)
                    (S (mock_calls d)) (mock_fail_at d) in
  match mock_fail_at d with
  | Some k =>
      if (mock_calls d =? k)%nat then (inl (DeviceError "VisaIOError"), d1)
      else let (v, d2) := mock_answer d1 c in (inr v, d2)
  | None => let (v, d2) := mock_answer d1 c in (inr v, d2)
  end.

(** A supply that is off, at 0 V, and never fails; and one that fails on
    its [k]-th call. *)
Definition mock_idle : mock_psu := MockPSU 0 0 false 0 None.
Definition mock_failing (k : nat) : mock_psu := MockPSU 0 0 false 0 (Some k).

(** ** Reading results and logs *)



(** The voltage column of the data [ramp_voltage] returns. *)
Definition voltages (data : list (Q * pyval)) : list Q := map fst data.

(** One completed pass through the loop body: the setpoint, what
    [set_channel_voltage] answered and the current that was read. *)
Record step : Type := Step { st_v : Q; st_set : pyval; st_cur : pyval }.

Definition step_point (s : step) : Q * pyval := (st_v s, st_cur s).

Definition step_events (channel : Z) (delay : Q) (s : step) : list event :=
  [EvPrintSetting channel (st_v s);
   EvCall (set_channel_voltage channel (st_v s)) (inr (st_set s));
   EvCall (get_channel_current channel) (inr (st_cur s));
   EvSleep delay].

(** The lengths of the sleeps in a log. *)
Fixpoint sleeps (es : list event) : list Q :=
  match es with
  | [] => []
  | EvSleep d :: rest => d :: sleeps rest
  | _ :: rest => sleeps rest
  end.

(** The driver calls in a log, answered or not. *)
Fixpoint commands (es : list event) : list command :=
  match es with
  | [] => []
  | EvCall c _ :: rest => c :: commands rest
  | _ :: rest => commands rest
  end.

(** The voltage of the last [set_channel_voltage] on [ch] that the driver
    accepted; [prev] is what it was before the log started. *)
Fixpoint last_commanded (ch : Z) (es : list event) (prev : option Q)
  : option Q :=
  match es with
  | [] => prev
  | EvCall (set_channel_voltage ch' v) (inr _) :: rest =>
      last_commanded ch rest (if (ch' =? ch)%Z then Some v else prev)
  | _ :: rest => last_commanded ch rest prev
  end.

(** [answers exec d es d']: the driver calls of [es] are what the device,
    started in state [d], answers in that order, and they leave it in
    state [d']. *)
Fixpoint answers {D : Type} (exec : D -> command -> (exn + pyval) * D)
         (d : D) (es : list event) (d' : D) : Prop :=
  match es with
  | [] => d' = d
  | EvCall c r :: rest =>
      exists d1, exec d c = (r, d1) /\ answers exec d1 rest d'
  | _ :: rest => answers exec d rest d'
  end.

(** A device that never raises. *)
Definition reliable {D : Type} (exec : D -> command -> (exn + pyval) * D)
  : Prop :=
  forall d c, exists v d', exec d c = (inr v, d').

(** An event that switches the output of channel [ch] on, and one that
    switches some output on. *)
Definition enables (ch : Z) (ev : event) : Prop :=
  exists r, ev = EvCall (set_output ch true) r.

Definition enables_output (ev : event) : Prop :=
  exists ch, enables ch ev.

(** The events [reset_HEMT_settings] waits for before it switches an
    output on: the supply reported its output off, channel [ch] accepted
    0 V, and channel [ch] read back a voltage equal to 0. *)
Definition reports_off (ev : event) : Prop :=
  ev = EvCall get_output (inr (PyBool false)).

Definition accepts_zero (ch : Z) (ev : event) : Prop :=
  exists r, ev = EvCall (set_channel_voltage ch 0) (inr r).

Definition reads_zero (ch : Z) (ev : event) : Prop :=
  exists v, ev = EvCall (get_channel_voltage ch) (inr v)
            /\ py_eq_zero v = true.

(** [precedes P Q es]: whenever an event satisfying [Q] occurs in [es], an
    event satisfying [P] has occurred earlier. *)
Definition precedes (P Q : event -> Prop) (es : list event) : Prop :=
  forall l1 e l2, es = l1 ++ e :: l2 -> Q e -> exists x, In x l1 /\ P x.

(** A supply that accepts every command and answers [None]. *)
Definition null_exec (d : unit) (c : command) : (exn + pyval) * unit :=
  (inr PyNone, d).

(** ** Bench runs *)

(** What a run returned, if it returned. *)
Definition data_of {A D : Type} (r : outcome (list A) * world D) : list A :=
  match fst r with
  | Return data => data
  | Raise _ => []
  end.

(** The ramp of the specification's example, 0 V to 1.0 V in steps of
    0.3 V, on channel 1 of the idle supply, without sleeping. *)
Definition bench_up : outcome (list (Q * pyval)) * world mock_psu :=
  ramp_voltage mock_psu mock_exec 1 0 1.0 0.3 0 (World mock_idle []).

(** A ramp from 0 V to 1 V in steps of 0.5 V on a supply whose fourth call
    (the read of the second pass) fails. *)
Definition bench_failed_read : outcome (list (Q * pyval)) * world mock_psu :=
  ramp_voltage mock_psu mock_exec 1 0 1 0.5 0 (World (mock_failing 3) []).

(** A reset of the idle supply. *)
Definition bench_reset : outcome unit * world mock_psu :=
  reset_HEMT_settings mock_psu mock_exec PyNone (World mock_idle []).

(** ** The rest of the helper cell *)

(** [x < y] on numbers. *)
Definition Qlt_bool (x y : Q) : bool := negb (Qle_bool y x).

(** [def turn_on_HEMTS(HEMT_PSU)] and [def turn_off_HEMTS(HEMT_PSU)] *)
Definition sig_turn_on_HEMTS : signature :=
  {| fn_name := "turn_on_HEMTS"; fn_params := [("HEMT_PSU", None)] |}.

Definition sig_turn_off_HEMTS : signature :=
  {| fn_name := "turn_off_HEMTS"; fn_params := [("HEMT_PSU", None)] |}.

Section Helpers.

Variable D : Type.
Variable exec : D -> command -> (exn + pyval) * D.

Notation "x <- m ;; k" := (bind D m (fun x => k))
  (at level 61, m at next level, right associativity).

(** [monitor_IV_curve(HEMT_PSU, ch, target=None, tol=1e-3)]:
<<
    current_list, voltage_list = [], []
    current = HEMT_PSU.get_channel_current(ch)
    current_list.append(current)
    voltage = HEMT_PSU.get_channel_voltage(ch)
    voltage_list.append(voltage)
    if target is not None:
        if target is not None and abs(current - target) < tol:
            return True, (current_list, voltage_list)
        else:
            return False, (current_list, voltage_list)
    else:
        return False, (current_list, voltage_list)
>>
    [target] is [None] or a number; the subtraction needs [current] to be
    a number and raises [TypeError] otherwise. *)
Definition monitor_IV_curve (ch : Z) (target : option Q) (tol : Q)
  : M D (bool * (list pyval * list pyval)) :=
  current <- call D exec (get_channel_current ch) ;;
  let current_list := [] ++ [current] in
  voltage <- call D exec (get_channel_voltage ch) ;;
  let voltage_list := [] ++ [voltage] in
  match target with
  | Some t =>
      c <- lift D (as_number "current" current) ;;
      if Qlt_bool (Qabs (c - t)) tol
      then ret D (true, (current_list, voltage_list))
      else ret D (false, (current_list, voltage_list))
  | None => ret D (false, (current_list, voltage_list))
  end.

(** The calls [turn_on_HEMTS(...)] and [turn_off_HEMTS(...)] with
    positional arguments [args] and keyword arguments [kwargs], as the
    last two cells of the power-supply part make them. *)
Definition call_turn_on_HEMTS (args : list pyval)
           (kwargs : list (string * pyval)) : M D unit :=
  e <- lift D (bind_args sig_turn_on_HEMTS args kwargs) ;;
  turn_on_HEMTS D exec (arg e "HEMT_PSU").

Definition call_turn_off_HEMTS (args : list pyval)
           (kwargs : list (string * pyval)) : M D unit :=
  e <- lift D (bind_args sig_turn_off_HEMTS args kwargs) ;;
  turn_off_HEMTS D exec (arg e "HEMT_PSU").

(** A straight-line script: driver calls made in order, each followed by an
    assertion on what it answered. *)
Fixpoint run_script (script : list (command * (pyval -> bool))) : M D unit :=
  match script with
  | [] => ret D tt
  | (c, check) :: rest =>
      v <- call D exec c ;;
      _ <- assert D (check v) ;;
      run_script rest
  end.

End Helpers.

(** No assertion. *)
Definition unchecked (v : pyval) : bool := true.

(** [reset_HEMT_settings] read as a script: its nine calls and the three
    assertions it makes on the way. *)
Definition reset_script : list (command * (pyval -> bool)) :=
  [(set_overcurrent 1 0.005, unchecked);
   (set_overcurrent 2 0.05, unchecked);
   (get_output, py_is_False);
   (set_channel_voltage 1 0, unchecked);
   (set_channel_voltage 2 0, unchecked);
   (get_channel_voltage 1, py_eq_zero);
   (get_channel_voltage 2, py_eq_zero);
   (set_output 1 true, unchecked);
   (set_output 2 true, unchecked)].

(** The log entry of a call that was answered, and a run of answered
    calls that follows a script and passes its assertions. *)
Definition answer_event (cv : command * pyval) : event :=
  EvCall (fst cv) (inr (snd cv)).

Definition passed (done : list (command * pyval))
           (script : list (command * (pyval -> bool))) : Prop :=
  Forall2 (fun cv sc => fst cv = fst sc /\ snd sc (snd cv) = true)
          done script.

(** ** More ways to read a log *)

(** [l1] is an initial segment of [l2]. *)
Definition prefix {A : Type} (l1 l2 : list A) : Prop :=
  exists rest, l2 = l1 ++ rest.

(** The driver calls of a ramp over [vs]: a write and a read per
    setpoint. *)
Definition ramp_calls (channel : Z) (vs : list Q) : list command :=
  flat_map (fun v => [set_channel_voltage channel v;
                      get_channel_current channel]) vs.


(** A command that only reads. *)
Definition is_read (c : command) : bool :=
  match c with
  | get_channel_current _ | get_channel_voltage _ | get_output => true
  | _ => false
  end.

(** A call that the driver answered. *)
Definition answered (ev : event) : Prop :=
  exists c v, ev = EvCall c (inr v).

(** An event that switched the output of channel [ch] on: the call was
    answered. *)
Definition enabled (ch : Z) (ev : event) : Prop :=
  exists v, ev = EvCall (set_output ch true) (inr v).

(** ** More bench runs *)

(** A ramp down from 1.0 V to 0 V in steps of 0.5 V. *)
Definition bench_down : outcome (list (Q * pyval)) * world mock_psu :=
  ramp_voltage mock_psu mock_exec 1 1.0 0 0.5 0 (World mock_idle []).

(** A ramp asked to sleep for -1 s. *)
Definition bench_negative_delay
  : outcome (list (Q * pyval)) * world mock_psu :=
  ramp_voltage mock_psu mock_exec 1 0 1 0.5 (-1) (World mock_idle []).

(** Monitoring channel 1 of the idle supply against a target of 0 A, and
    of a supply whose reads return [None]. *)
Definition bench_monitor
  : outcome (bool * (list pyval * list pyval)) * world mock_psu :=
  monitor_IV_curve mock_psu mock_exec 1 (Some 0) 0.001 (World mock_idle []).

Definition bench_monitor_none
  : outcome (bool * (list pyval * list pyval)) * world unit :=
  monitor_IV_curve unit null_exec 1 (Some 0) 0.001 (World tt []).

(** A reset of a supply whose output is on. *)
Definition bench_reset_on : outcome unit * world mock_psu :=
  reset_HEMT_settings mock_psu mock_exec PyNone
                      (World (MockPSU 0 0 true 0 None) []).

(** ** Facts about ceilings *)






Lemma Qceiling_pos (x : Q) : 0 < x -> (0 < Qceiling x)%Z.
Proof.
  intros Hx. pose proof (Qle_ceiling x) as Hc.
  rewrite Zlt_Qlt. change (inject_Z 0) with 0. lra.
Qed.


(** ** Facts about [arange] *)

Lemma arange_ok (start stop step : Q) :
  ~ step == 0 ->
  arange start stop step =
  inr (map (arange_item start step) (seq 0 (arange_length start stop step))).
Proof.
  intros Hs. unfold arange.
  destruct (Qeq_bool step 0) eqn:E; [|reflexivity].
  apply Qeq_bool_iff in E. contradiction.
Qed.





(** ** The setpoints of a ramp with a positive step *)

Lemma Qle_bool_false (x y : Q) : Qle_bool x y = false -> y < x.
Proof.
  intros H. apply Qnot_le_lt. intros Hle.
  apply Qle_bool_iff in Hle. congruence.
Qed.




(** ** The loop of [ramp_voltage] *)

Section Ramp.

Variable D : Type.
Variable exec : D -> command -> (exn + pyval) * D.

Lemma answers_app (es1 es2 : list event) (d d1 d2 : D) :
  answers exec d es1 d1 -> answers exec d1 es2 d2 ->
  answers exec d (es1 ++ es2) d2.
Proof.
  revert d. induction es1 as [|ev es1 IH]; intros d H1 H2; simpl in *.
  - subst d1. exact H2.
  - destruct ev; try (now apply IH).
    destruct H1 as (dm & Hm & H1). exists dm. split; [exact Hm|].
    now apply IH.
Qed.

(** One pass through the loop body, spelled out on the world. *)
Lemma ramp_loop_cons (channel : Z) (delay v : Q) (rest : list Q)
      (acc : list (Q * pyval)) (w : world D) :
  ramp_loop D exec channel delay (v :: rest) acc w =
  match exec (dev w) (set_channel_voltage channel v) with
  | (inl e, d1) =>
      (Raise e,
       World d1 (log w ++ [EvPrintSetting channel v;
                           EvCall (set_channel_voltage channel v) (inl e)]))
  | (inr r, d1) =>
      match exec d1 (get_channel_current channel) with
      | (inl e, d2) =>
          (Raise e,
           World d2 (log w ++ [EvPrintSetting channel v;
                               EvCall (set_channel_voltage channel v) (inr r);
                               EvCall (get_channel_current channel) (inl e)]))
      | (inr cur, d2) =>
          if Qle_bool 0 delay
          then ramp_loop D exec channel delay rest (acc ++ [(v, cur)])
                 (World d2 (log w ++ step_events channel delay (Step v r cur)))
          else
            (Raise ValueError,
             World d2 (log w ++ [EvPrintSetting channel v;
                                 EvCall (set_channel_voltage channel v) (inr r);
                                 EvCall (get_channel_current channel) (inr cur)]))
      end
  end.
Proof.
  simpl. unfold bind, emit, call, sleep. simpl.
  destruct (exec (dev w) (set_channel_voltage channel v)) as [[e|r] d1];
    simpl.
  - now rewrite <- app_assoc.
  - destruct (exec d1 (get_channel_current channel)) as [[e|cur] d2]; simpl.
    + now rewrite <- !app_assoc.
    + destruct (Qle_bool 0 delay); unfold emit, raise; simpl;
        now rewrite <- !app_assoc.
Qed.

(** A loop that runs to its end has made one complete pass per setpoint,
    in order. *)
Lemma ramp_loop_return (channel : Z) (delay : Q) (vs : list Q) :
  forall (acc : list (Q * pyval)) (w : world D) data w',
    ramp_loop D exec channel delay vs acc w = (Return data, w') ->
    exists steps : list step,
      map st_v steps = vs /\
      data = acc ++ map step_point steps /\
      log w' = log w ++ flat_map (step_events channel delay) steps /\
      answers exec (dev w) (flat_map (step_events channel delay) steps)
              (dev w') /\
      (vs <> [] -> 0 <= delay).
Proof.
  induction vs as [|v rest IH]; intros acc w data w' H.
  - simpl in H. unfold ret in H. inversion H; subst.
    exists []. simpl. rewrite !app_nil_r. repeat split; congruence.
  - rewrite ramp_loop_cons in H.
    destruct (exec (dev w) (set_channel_voltage channel v))
      as [[e|r] d1] eqn:E1; [discriminate|].
    destruct (exec d1 (get_channel_current channel))
      as [[e|cur] d2] eqn:E2; [discriminate|].
    destruct (Qle_bool 0 delay) eqn:Ed; [|discriminate].
    apply IH in H. destruct H as (steps & Hv & Hd & Hl & Ha & _).
    exists (Step v r cur :: steps). simpl in *.
    repeat split.
    + now rewrite Hv.
    + now rewrite Hd, <- app_assoc.
    + rewrite Hl, <- app_assoc. reflexivity.
    + exists d1. split; [exact E1|]. exists d2. split; [exact E2|].
      exact Ha.
    + intros _. now apply Qle_bool_iff.
Qed.

(** A loop that raises has made complete passes for the setpoints before
    some setpoint [v] and has stopped inside the pass for [v]: at the
    write, at the read, or at a sleep of negative length. *)
Lemma ramp_loop_raise (channel : Z) (delay : Q) (vs : list Q) :
  forall (acc : list (Q * pyval)) (w : world D) e w',
    ramp_loop D exec channel delay vs acc w = (Raise e, w') ->
    exists (steps : list step) (v : Q) (rest : list Q) (tail : list event),
      vs = map st_v steps ++ v :: rest /\
      log w' = log w ++ flat_map (step_events channel delay) steps
                     ++ EvPrintSetting channel v :: tail /\
      answers exec (dev w)
              (flat_map (step_events channel delay) steps
               ++ EvPrintSetting channel v :: tail) (dev w') /\
      (tail = [EvCall (set_channel_voltage channel v) (inl e)]
       \/ (exists r,
             tail = [EvCall (set_channel_voltage channel v) (inr r);
                     EvCall (get_channel_current channel) (inl e)])
       \/ (exists r cur,
             tail = [EvCall (set_channel_voltage channel v) (inr r);
                     EvCall (get_channel_current channel) (inr cur)]
             /\ e = ValueError /\ delay < 0)).
Proof.
  induction vs as [|v rest IH]; intros acc w e w' H.
  - simpl in H. discriminate.
  - rewrite ramp_loop_cons in H.
    destruct (exec (dev w) (set_channel_voltage channel v))
      as [[e1|r] d1] eqn:E1.
    { inversion H; subst. exists [], v, rest. eexists. simpl.
      repeat split; [| left; reflexivity].
      exists d1. split; [exact E1|reflexivity]. }
    destruct (exec d1 (get_channel_current channel))
      as [[e2|cur] d2] eqn:E2.
    { inversion H; subst. exists [], v, rest. eexists. simpl.
      repeat split; [| right; left; eexists; reflexivity].
      exists d1. split; [exact E1|]. exists d2. split; [exact E2|].
      reflexivity. }
    destruct (Qle_bool 0 delay) eqn:Ed.
    + apply IH in H.
      destruct H as (steps & v' & rest' & tail & Hv & Hl & Ha & Ht).
      exists (Step v r cur :: steps), v', rest', tail. simpl in *.
      repeat split.
      * now rewrite Hv.
      * rewrite Hl, <- app_assoc. reflexivity.
      * exists d1. split; [exact E1|]. exists d2. split; [exact E2|].
        exact Ha.
      * exact Ht.
    + inversion H; subst. exists [], v, rest. eexists. simpl.
      repeat split.
      * exists d1. split; [exact E1|]. exists d2. split; [exact E2|].
        reflexivity.
      * right; right. exists r, cur. repeat split.
        apply Qle_bool_false in Ed. exact Ed.
Qed.

(** With a device that never raises and a sleep that is not negative the
    loop runs to its end. *)
Lemma ramp_loop_total (channel : Z) (delay : Q) (vs : list Q) :
  reliable exec -> 0 <= delay ->
  forall (acc : list (Q * pyval)) (w : world D),
  exists data w',
    ramp_loop D exec channel delay vs acc w = (Return data, w').
Proof.
  intros Hrel Hdelay.
  induction vs as [|v rest IH]; intros acc w.
  - simpl. unfold ret. eauto.
  - rewrite ramp_loop_cons.
    destruct (Hrel (dev w) (set_channel_voltage channel v))
      as (r & d1 & ->).
    destruct (Hrel d1 (get_channel_current channel)) as (cur & d2 & ->).
    rewrite (proj2 (Qle_bool_iff _ _) Hdelay). apply IH.
Qed.

End Ramp.

(** ** [ramp_voltage] as a whole *)

Section RampVoltage.

Variable D : Type.
Variable exec : D -> command -> (exn + pyval) * D.

Lemma voltages_step_points (steps : list step) :
  voltages (map step_point steps) = map st_v steps.
Proof.
  unfold voltages. rewrite map_map. reflexivity.
Qed.

(** A call that returns has computed its setpoints, made one complete
    pass per setpoint and printed the closing newline. *)
Lemma ramp_voltage_return (channel : Z) (v_start v_stop v_step delay : Q)
      (w : world D) data w' :
  ramp_voltage D exec channel v_start v_stop v_step delay w
  = (Return data, w') ->
  exists steps : list step,
    ramp_setpoints v_start v_stop v_step = inr (map st_v steps) /\
    data = map step_point steps /\
    log w' = log w ++ flat_map (step_events channel delay) steps
                   ++ [EvPrintNewline] /\
    answers exec (dev w) (flat_map (step_events channel delay) steps)
            (dev w') /\
    (steps <> [] -> 0 <= delay).
Proof.
  unfold ramp_voltage, bind. intros H.
  destruct (ramp_setpoints v_start v_stop v_step) as [e|vs] eqn:Evs;
    simpl in H; [discriminate|].
  destruct (ramp_loop D exec channel delay vs [] w) as [[d|e] w1] eqn:El;
    [|discriminate].
  unfold emit, ret in H. simpl in H. inversion H; subst. clear H.
  apply ramp_loop_return in El.
  destruct El as (steps & Hv & Hd & Hl & Ha & Hdelay).
  exists steps. simpl in *. subst vs. repeat split.
  - exact Hd.
  - rewrite Hl, <- app_assoc. reflexivity.
  - exact Ha.
  - intros Hne. apply Hdelay. destruct steps; [congruence|discriminate].
Qed.


(** A call that raises has either failed to compute its setpoints, before
    touching the world, or has stopped inside the pass for one of them. *)
Lemma ramp_voltage_raise (channel : Z) (v_start v_stop v_step delay : Q)
      (w : world D) e w' :
  ramp_voltage D exec channel v_start v_stop v_step delay w
  = (Raise e, w') ->
  (ramp_setpoints v_start v_stop v_step = inl e /\ w' = w)
  \/ exists (steps : list step) (v : Q) (rest : list Q) (tail : list event),
      ramp_setpoints v_start v_stop v_step
      = inr (map st_v steps ++ v :: rest) /\
      log w' = log w ++ flat_map (step_events channel delay) steps
                     ++ EvPrintSetting channel v :: tail /\
      answers exec (dev w)
              (flat_map (step_events channel delay) steps
               ++ EvPrintSetting channel v :: tail) (dev w') /\
      (tail = [EvCall (set_channel_voltage channel v) (inl e)]
       \/ (exists r,
             tail = [EvCall (set_channel_voltage channel v) (inr r);
                     EvCall (get_channel_current channel) (inl e)])
       \/ (exists r cur,
             tail = [EvCall (set_channel_voltage channel v) (inr r);
                     EvCall (get_channel_current channel) (inr cur)]
             /\ e = ValueError /\ delay < 0)).
Proof.
  unfold ramp_voltage, bind. intros H.
  destruct (ramp_setpoints v_start v_stop v_step) as [e0|vs] eqn:Evs;
    simpl in H.
  - unfold raise in H. inversion H; subst. now left.
  - right.
    destruct (ramp_loop D exec channel delay vs [] w) as [[d|e1] w1] eqn:El.
    + unfold emit, ret in H. simpl in H. discriminate.
    + inversion H; subst. clear H.
      apply ramp_loop_raise in El.
      destruct El as (steps & v & rest & tail & Hv & Hl & Ha & Ht).
      exists steps, v, rest, tail. subst vs. repeat split; assumption.
Qed.

(** With a device that never raises, a sleep that is not negative and a
    step that is not zero, the call returns. *)
Lemma ramp_voltage_total (channel : Z) (v_start v_stop v_step delay : Q)
      (w : world D) :
  reliable exec -> 0 <= delay -> ~ v_step == 0 ->
  exists data w',
    ramp_voltage D exec channel v_start v_stop v_step delay w
    = (Return data, w').
Proof.
  intros Hrel Hdelay Hstep. unfold ramp_voltage, bind.
  assert (Hvs : exists vs, ramp_setpoints v_start v_stop v_step = inr vs).
  { unfold ramp_setpoints.
    destruct (Qle_bool v_start v_stop); rewrite arange_ok; eauto.
    intros E. apply Hstep. lra. }
  destruct Hvs as (vs & ->). simpl.
  destruct (ramp_loop_total D exec channel delay vs Hrel Hdelay [] w)
    as (data & w1 & ->).
  unfold emit, ret. simpl. eauto.
Qed.

End RampVoltage.

(** ** The voltages of a returned ramp *)


Section Voltages.

Variable D : Type.
Variable exec : D -> command -> (exn + pyval) * D.





End Voltages.

(** ** Reading logs *)

Lemma sleeps_app (es1 es2 : list event) :
  sleeps (es1 ++ es2) = sleeps es1 ++ sleeps es2.
Proof.
  induction es1 as [|ev es1 IH]; simpl; [reflexivity|].
  destruct ev; simpl; now rewrite IH.
Qed.

Lemma sleeps_steps (channel : Z) (delay : Q) (steps : list step) :
  sleeps (flat_map (step_events channel delay) steps)
  = repeat delay (List.length steps).
Proof.
  induction steps as [|s steps IH]; simpl; [reflexivity|].
  now rewrite IH.
Qed.

Lemma last_commanded_app (ch : Z) (es1 es2 : list event) :
  forall prev,
    last_commanded ch (es1 ++ es2) prev
    = last_commanded ch es2 (last_commanded ch es1 prev).
Proof.
  induction es1 as [|ev es1 IH]; intros prev; simpl; [reflexivity|].
  destruct ev as [c r| | |]; try apply IH.
  destruct c; try apply IH.
  destruct r; apply IH.
Qed.

(** After complete passes on [channel], the last accepted voltage on that
    channel is the setpoint of the last pass. *)
Lemma last_commanded_steps (channel : Z) (delay : Q) (steps : list step) :
  forall prev,
    last_commanded channel (flat_map (step_events channel delay) steps) prev
    = match rev steps with
      | [] => prev
      | s :: _ => Some (st_v s)
      end.
Proof.
  induction steps as [|s steps IH] using rev_ind; intros prev.
  - reflexivity.
  - rewrite flat_map_app, last_commanded_app, rev_app_distr. simpl.
    now rewrite Z.eqb_refl.
Qed.

Lemma steps_end_with_sleep (channel : Z) (delay : Q) (steps : list step) :
  steps <> [] ->
  exists es,
    flat_map (step_events channel delay) steps = es ++ [EvSleep delay].
Proof.
  intros Hne.
  destruct (exists_last Hne) as (steps' & s & ->).
  rewrite flat_map_app. simpl.
  exists (flat_map (step_events channel delay) steps'
          ++ [EvPrintSetting channel (st_v s);
              EvCall (set_channel_voltage channel (st_v s)) (inr (st_set s));
              EvCall (get_channel_current channel) (inr (st_cur s))]).
  now rewrite <- app_assoc.
Qed.

(** ** What [ramp_voltage] does to the device *)

Section Protocol.

Variable D : Type.
Variable exec : D -> command -> (exn + pyval) * D.

(** C5. A call that returns has made, for every setpoint in order, one
    pass consisting of the write of that voltage on the channel, the
    read of the current on the channel, and the sleep of [delay]; the
    pair recorded for the pass holds the setpoint and the very value the
    read returned; the returned sequence is the sequence of these pairs,
    one per setpoint, in the order of the passes. *)
Theorem ramp_voltage_protocol
        (channel : Z) (v_start v_stop v_step delay : Q)
        (w : world D) data w' :
  ramp_voltage D exec channel v_start v_stop v_step delay w
  = (Return data, w') ->
  exists steps : list step,
    ramp_setpoints v_start v_stop v_step = inr (map st_v steps) /\
    data = map step_point steps /\
    log w' = log w ++ flat_map (step_events channel delay) steps
                   ++ [EvPrintNewline] /\
    answers exec (dev w) (flat_map (step_events channel delay) steps)
            (dev w').
Proof.
  intros H. apply ramp_voltage_return in H.
  destruct H as (steps & Hs & Hd & Hl & Ha & _).
  exists steps. auto.
Qed.

(** C8. A call that returns [n] points has slept exactly [n] times, each
    time for [delay]; when [n > 0] the last thing it did before the
    closing newline was to sleep. *)
Theorem ramp_voltage_sleeps_after_every_setpoint
        (channel : Z) (v_start v_stop v_step delay : Q)
        (w : world D) data w' :
  ramp_voltage D exec channel v_start v_stop v_step delay w
  = (Return data, w') ->
  exists es,
    log w' = log w ++ es /\
    sleeps es = repeat delay (List.length data) /\
    (data <> [] -> exists es', es = es' ++ [EvSleep delay; EvPrintNewline]).
Proof.
  intros H. apply ramp_voltage_return in H.
  destruct H as (steps & _ & Hd & Hl & _).
  exists (flat_map (step_events channel delay) steps ++ [EvPrintNewline]).
  split; [exact Hl|]. subst data. split.
  - rewrite sleeps_app, sleeps_steps, List.length_map. simpl.
    apply app_nil_r.
  - intros Hne.
    assert (Hs : steps <> []) by (intros ->; now apply Hne).
    destruct (steps_end_with_sleep channel delay steps Hs) as (es' & ->).
    exists es'. now rewrite <- app_assoc.
Qed.

(** C6, amended. When a driver call raises during a ramp (the step is
    not zero and the sleep not negative), the exception that reaches the
    caller is the one the driver raised, the failed call is the last
    event of the log, and the passes before it are complete.  If the
    write of setpoint [v] failed, the last voltage the driver accepted is
    that of the previous pass (what it was before the ramp, if there is
    none); if the read after the write of [v] failed, it is [v]. *)
Theorem ramp_voltage_device_failure
        (channel : Z) (v_start v_stop v_step delay : Q)
        (w : world D) e w' (prev : option Q) :
  ~ v_step == 0 -> 0 <= delay ->
  ramp_voltage D exec channel v_start v_stop v_step delay w
  = (Raise e, w') ->
  exists (steps : list step) (v : Q) (rest : list Q) (es : list event),
    ramp_setpoints v_start v_stop v_step
    = inr (map st_v steps ++ v :: rest) /\
    log w' = log w ++ es /\
    answers exec (dev w) es (dev w') /\
    ((es = flat_map (step_events channel delay) steps
           ++ [EvPrintSetting channel v;
               EvCall (set_channel_voltage channel v) (inl e)]
      /\ last_commanded channel es prev
         = match rev steps with
           | [] => prev
           | s :: _ => Some (st_v s)
           end)
     \/
     (exists r,
         es = flat_map (step_events channel delay) steps
              ++ [EvPrintSetting channel v;
                  EvCall (set_channel_voltage channel v) (inr r);
                  EvCall (get_channel_current channel) (inl e)]
         /\ last_commanded channel es prev = Some v)).
Proof.
  intros Hstep Hdelay H. apply ramp_voltage_raise in H.
  destruct H as [[Hs _] | (steps & v & rest & tail & Hs & Hl & Ha & Ht)].
  { exfalso. unfold ramp_setpoints in Hs.
    destruct (Qle_bool v_start v_stop); rewrite arange_ok in Hs;
      try discriminate; intros E; apply Hstep; lra. }
  exists steps, v, rest.
  exists (flat_map (step_events channel delay) steps
          ++ EvPrintSetting channel v :: tail).
  repeat split; try assumption.
  destruct Ht as [-> | [(r & ->) | (r & cur & _ & _ & Hneg)]].
  - left. split; [reflexivity|].
    rewrite last_commanded_app, last_commanded_steps. reflexivity.
  - right. exists r. split; [reflexivity|].
    rewrite last_commanded_app. simpl. now rewrite Z.eqb_refl.
  - lra.
Qed.


End Protocol.

(** ** [reset_HEMT_settings] *)

Lemma precedes_prefix (P Q : event -> Prop) (es1 es2 : list event) :
  (forall e, In e es1 -> ~ Q e) ->
  (exists x, In x es1 /\ P x) ->
  precedes P Q (es1 ++ es2).
Proof.
  intros Hno (x & Hx & HP) l1 e l2 Heq HQ.
  exists x. split; [|exact HP].
  apply app_eq_app in Heq.
  destruct Heq as (l & [[-> Hr] | [-> Hr]]).
  - destruct l as [|e' l].
    + now rewrite app_nil_r in Hx.
    + simpl in Hr. inversion Hr; subst e'.
      exfalso. apply (Hno e); [|exact HQ].
      apply in_or_app. right. now left.
  - apply in_or_app. now left.
Qed.

Section Reset.

Variable D : Type.
Variable exec : D -> command -> (exn + pyval) * D.

Ltac next_call H r :=
  match type of H with
  | context [exec ?d ?c] =>
      let E := fresh "E" in
      let e := fresh "e" in
      let d' := fresh "d" in
      destruct (exec d c) as [[e|r] d'] eqn:E; simpl in H; [discriminate|]
  end.

(** A reset that returns has made exactly these nine driver calls, all
    answered, with the output reported off and both voltages read back
    equal to 0. *)
Lemma reset_HEMT_settings_return (output : pyval) (w w' : world D) :
  reset_HEMT_settings D exec output w = (Return tt, w') ->
  exists r1 r2 r3 r4 v1 v2 r5 r6,
    log w' = log w ++
      [EvCall (set_overcurrent 1 0.005) (inr r1);
       EvCall (set_overcurrent 2 0.05) (inr r2);
       EvCall get_output (inr (PyBool false));
       EvCall (set_channel_voltage 1 0) (inr r3);
       EvCall (set_channel_voltage 2 0) (inr r4);
       EvCall (get_channel_voltage 1) (inr v1);
       EvCall (get_channel_voltage 2) (inr v2)]
      ++ [EvCall (set_output 1 true) (inr r5)]
      ++ [EvCall (set_output 2 true) (inr r6)]
    /\ py_eq_zero v1 = true /\ py_eq_zero v2 = true.
Proof.
  unfold reset_HEMT_settings, bind, call, assert, ret, raise. simpl.
  intros H.
  next_call H r1. next_call H r2. next_call H status.
  destruct (py_is_False status) eqn:Hoff; simpl in H; [|discriminate].
  next_call H r3. next_call H r4. next_call H v1.
  destruct (py_eq_zero v1) eqn:Hz1; simpl in H; [|discriminate].
  next_call H v2.
  destruct (py_eq_zero v2) eqn:Hz2; simpl in H; [|discriminate].
  next_call H r5. next_call H r6.
  inversion H; subst w'; clear H. simpl.
  assert (status = PyBool false) as ->.
  { destruct status as [|[|]| | |]; simpl in Hoff; congruence. }
  exists r1, r2, r3, r4, v1, v2, r5, r6.
  repeat rewrite <- app_assoc. simpl. auto.
Qed.

(** C10. In an execution of [reset_HEMT_settings] that returns, the
    overcurrent limits are set first (channel 1 to 0.005, channel 2 to
    0.05); no output is switched on before the supply has reported its
    output off, both channels have accepted 0 V and both have read back a
    voltage equal to 0; and the output of channel 1 (gate) is switched on
    before that of channel 2 (drain). *)
Theorem reset_HEMT_settings_order (output : pyval) (w w' : world D) :
  reset_HEMT_settings D exec output w = (Return tt, w') ->
  exists es,
    log w' = log w ++ es /\
    commands es
    = [set_overcurrent 1 0.005; set_overcurrent 2 0.05; get_output;
       set_channel_voltage 1 0; set_channel_voltage 2 0;
       get_channel_voltage 1; get_channel_voltage 2;
       set_output 1 true; set_output 2 true] /\
    precedes reports_off enables_output es /\
    precedes (accepts_zero 1) enables_output es /\
    precedes (accepts_zero 2) enables_output es /\
    precedes (reads_zero 1) enables_output es /\
    precedes (reads_zero 2) enables_output es /\
    precedes (enables 1) (enables 2) es /\
    (exists e1 e2, In e1 es /\ enables 1 e1 /\ In e2 es /\ enables 2 e2).
Proof.
  intros H. apply reset_HEMT_settings_return in H.
  destruct H as (r1 & r2 & r3 & r4 & v1 & v2 & r5 & r6 & Hl & Hz1 & Hz2).
  eexists. split; [exact Hl|]. split; [reflexivity|].
  assert (Hquiet : forall e,
             In e [EvCall (set_overcurrent 1 0.005) (inr r1);
                   EvCall (set_overcurrent 2 0.05) (inr r2);
                   EvCall get_output (inr (PyBool false));
                   EvCall (set_channel_voltage 1 0) (inr r3);
                   EvCall (set_channel_voltage 2 0) (inr r4);
                   EvCall (get_channel_voltage 1) (inr v1);
                   EvCall (get_channel_voltage 2) (inr v2)] ->
             ~ enables_output e).
  { intros e Hin (ch & r & He). simpl in Hin.
    repeat (destruct Hin as [<-|Hin]; [discriminate|]). exact Hin. }
  repeat split.
  - apply precedes_prefix; [exact Hquiet|].
    eexists. split; [right; right; left; reflexivity|reflexivity].
  - apply precedes_prefix; [exact Hquiet|].
    eexists. split; [do 3 right; left; reflexivity|]. now exists r3.
  - apply precedes_prefix; [exact Hquiet|].
    eexists. split; [do 4 right; left; reflexivity|]. now exists r4.
  - apply precedes_prefix; [exact Hquiet|].
    eexists. split; [do 5 right; left; reflexivity|]. now exists v1.
  - apply precedes_prefix; [exact Hquiet|].
    eexists. split; [do 6 right; left; reflexivity|]. now exists v2.
  - rewrite app_assoc. apply precedes_prefix.
    + intros e Hin (r & He). apply in_app_or in Hin.
      destruct Hin as [Hin|Hin].
      * apply (Hquiet e Hin). exists 2%Z, r. exact He.
      * simpl in Hin. destruct Hin as [<-|[]]. discriminate.
    + eexists. split; [apply in_or_app; right; left; reflexivity|].
      now exists (inr r5).
  - eexists. eexists. split; [|split; [|split]].
    + apply in_or_app. right. left. reflexivity.
    + now exists (inr r5).
    + apply in_or_app. right. right. left. reflexivity.
    + now exists (inr r6).
Qed.

End Reset.

(** ** [turn_on_HEMTS] and [turn_off_HEMTS] *)

Section Turn.

Variable D : Type.
Variable exec : D -> command -> (exn + pyval) * D.

(** The call [reset_HEMT_settings()] does not bind: both parameters are
    missing. *)
Lemma reset_without_arguments :
  bind_args sig_reset_HEMT_settings [] []
  = inl (TypeError (MissingArguments "reset_HEMT_settings"
                                     ["HEMT_PSU"; "output"])).
Proof. reflexivity. Qed.

(** The calls [ramp_voltage(HEMT_PSU, ch=.., v_start=.., v_stop=..)] do not
    bind: [ramp_voltage] has no parameter [ch]. *)
Lemma ramp_with_keyword_ch (HEMT_PSU ch v_start v_stop : pyval) :
  bind_args sig_ramp_voltage [HEMT_PSU]
            [("ch", ch); ("v_start", v_start); ("v_stop", v_stop)]
  = inl (TypeError (UnexpectedKeyword "ramp_voltage" "ch")).
Proof. reflexivity. Qed.

(** C7. Whatever the device and the argument, [turn_on_HEMTS(HEMT_PSU)]
    raises [TypeError] at its first statement, the call of
    [reset_HEMT_settings] without its two arguments, and leaves the world
    as it was: no driver call is made, and neither the two ramps nor the
    line that reads [ch1_data] are reached. *)
Theorem turn_on_HEMTS_raises_TypeError (HEMT_PSU : pyval) (w : world D) :
  turn_on_HEMTS D exec HEMT_PSU w
  = (Raise (TypeError (MissingArguments "reset_HEMT_settings"
                                        ["HEMT_PSU"; "output"])), w)
  /\ exn_class (TypeError (MissingArguments "reset_HEMT_settings"
                                            ["HEMT_PSU"; "output"]))
     = "TypeError".
Proof.
  split; [|reflexivity].
  unfold turn_on_HEMTS, call_reset_HEMT_settings, bind.
  rewrite reset_without_arguments. reflexivity.
Qed.


End Turn.

(** ** The functions on the bench *)

Example ramp_setpoints_up :
  ramp_setpoints 0 1.0 0.3 = inr [0.0; 0.3; 0.6; 0.9; 1.2].
Proof. reflexivity. Qed.

Example ramp_setpoints_down :
  exists vs, ramp_setpoints 1.0 0 0.3 = inr vs
             /\ Forall2 Qeq vs [1.0; 0.7; 0.4; 0.1; -0.2].
Proof. eexists. split; [reflexivity|]. repeat constructor. Qed.

Example ramp_setpoints_exact_stop :
  ramp_setpoints 0 1.0 0.5 = inr [0.0; 0.5; 1.0].
Proof. reflexivity. Qed.

Example ramp_setpoints_same_bounds :
  exists vs, ramp_setpoints 0.7 0.7 0.3 = inr vs /\ Forall2 Qeq vs [0.7].
Proof. eexists. split; [reflexivity|]. repeat constructor. Qed.

Example ramp_setpoints_default_gate :
  exists vs, ramp_setpoints 0 1.1 0.01 = inr vs
             /\ List.length vs = 111%nat /\ last vs 0 == 1.1.
Proof.
  eexists. split; [vm_compute; reflexivity|].
  split; vm_compute; reflexivity.
Qed.

(** The same ramp when 1.1 and 0.01 are the binary64 numbers that Python
    reads for these literals: the quotient then lies just above 111 and
    the ramp has one more setpoint. *)
Example ramp_setpoints_default_gate_binary64 :
  exists vs,
    ramp_setpoints 0 (2476979795053773 # 2251799813685248)
                   (5764607523034235 # 576460752303423488) = inr vs
    /\ List.length vs = 112%nat.
Proof.
  eexists. split; [vm_compute; reflexivity|]. vm_compute. reflexivity.
Qed.

Example null_exec_reliable : reliable null_exec.
Proof. intros d c. exists PyNone, d. reflexivity. Qed.

Example null_ramp_returns :
  exists data w',
    ramp_voltage unit null_exec 2 0.7 0 0.01 1 (World tt [])
    = (Return data, w').
Proof.
  apply ramp_voltage_total.
  - exact null_exec_reliable.
  - discriminate.
  - intros H. discriminate H.
Qed.

Example bench_up_returns :
  bench_up
  = (Return [(0.0, PyFloat 0.000); (0.3, PyFloat 0.003);
             (0.6, PyFloat 0.006); (0.9, PyFloat 0.009);
             (1.2, PyFloat 0.012)],
     snd bench_up).
Proof. vm_compute. reflexivity. Qed.

(** ** Counterexamples *)


(** C6 as stated fails: in the ramp over 0.0, 0.5, 1.0 the read of the
    second pass fails; the last voltage the driver accepted is then 0.5,
    the voltage of the failing pass, not 0.0, that of the pass before. *)
Lemma ramp_voltage_failed_read_keeps_new_voltage :
  ramp_setpoints 0 1 0.5 = inr [0.0; 0.5; 1.0]
  /\ fst bench_failed_read = Raise (DeviceError "VisaIOError")
  /\ log (snd bench_failed_read)
     = [EvPrintSetting 1 0.0;
        EvCall (set_channel_voltage 1 0.0) (inr PyNone);
        EvCall (get_channel_current 1) (inr (PyFloat 0.000));
        EvSleep 0;
        EvPrintSetting 1 0.5;
        EvCall (set_channel_voltage 1 0.5) (inr PyNone);
        EvCall (get_channel_current 1) (inl (DeviceError "VisaIOError"))]
  /\ mock_v1 (dev (snd bench_failed_read)) = 0.5
  /\ last_commanded 1 (log (snd bench_failed_read)) None = Some 0.5
  /\ ~ 0.5 == 0.0.
Proof.
  repeat split; try reflexivity. intros H. discriminate H.
Qed.


(** ** The theorems at work on the bench *)

Lemma bench_up_run :
  ramp_voltage mock_psu mock_exec 1 0 1.0 0.3 0 (World mock_idle [])
  = (Return (data_of bench_up), snd bench_up).
Proof. vm_compute. reflexivity. Qed.




Lemma ramp_voltage_protocol_witness :
  ramp_voltage mock_psu mock_exec 1 0 1.0 0.3 0 (World mock_idle [])
  = (Return (data_of bench_up), snd bench_up)
  /\ exists steps : list step,
      ramp_setpoints 0 1.0 0.3 = inr (map st_v steps)
      /\ data_of bench_up = map step_point steps
      /\ log (snd bench_up)
         = [] ++ flat_map (step_events 1 0) steps ++ [EvPrintNewline]
      /\ answers mock_exec mock_idle (flat_map (step_events 1 0) steps)
                 (dev (snd bench_up)).
Proof.
  split; [exact bench_up_run|].
  exact (ramp_voltage_protocol
           mock_psu mock_exec 1 0 1.0 0.3 0 (World mock_idle [])
           (data_of bench_up) (snd bench_up) bench_up_run).
Defined.

Lemma ramp_voltage_sleeps_after_every_setpoint_witness :
  ramp_voltage mock_psu mock_exec 1 0 1.0 0.3 0 (World mock_idle [])
  = (Return (data_of bench_up), snd bench_up)
  /\ List.length (data_of bench_up) = 5%nat
  /\ exists es,
      log (snd bench_up) = [] ++ es
      /\ sleeps es = repeat 0 (List.length (data_of bench_up))
      /\ (data_of bench_up <> [] ->
          exists es', es = es' ++ [EvSleep 0; EvPrintNewline]).
Proof.
  split; [exact bench_up_run|]. split; [reflexivity|].
  exact (ramp_voltage_sleeps_after_every_setpoint
           mock_psu mock_exec 1 0 1.0 0.3 0 (World mock_idle [])
           (data_of bench_up) (snd bench_up) bench_up_run).
Defined.

Lemma bench_failed_read_run :
  ramp_voltage mock_psu mock_exec 1 0 1 0.5 0 (World (mock_failing 3) [])
  = (Raise (DeviceError "VisaIOError"), snd bench_failed_read).
Proof. vm_compute. reflexivity. Qed.

Lemma ramp_voltage_device_failure_witness :
  ~ 0.5 == 0
  /\ 0 <= 0
  /\ ramp_voltage mock_psu mock_exec 1 0 1 0.5 0 (World (mock_failing 3) [])
     = (Raise (DeviceError "VisaIOError"), snd bench_failed_read)
  /\ exists (steps : list step) (v : Q) (rest : list Q) (es : list event),
      ramp_setpoints 0 1 0.5 = inr (map st_v steps ++ v :: rest)
      /\ log (snd bench_failed_read) = [] ++ es
      /\ answers mock_exec (mock_failing 3) es (dev (snd bench_failed_read))
      /\ ((es = flat_map (step_events 1 0) steps
                ++ [EvPrintSetting 1 v;
                    EvCall (set_channel_voltage 1 v)
                           (inl (DeviceError "VisaIOError"))]
           /\ last_commanded 1 es None
              = match rev steps with
                | [] => None
                | s :: _ => Some (st_v s)
                end)
          \/
          (exists r,
              es = flat_map (step_events 1 0) steps
                   ++ [EvPrintSetting 1 v;
                       EvCall (set_channel_voltage 1 v) (inr r);
                       EvCall (get_channel_current 1)
                              (inl (DeviceError "VisaIOError"))]
              /\ last_commanded 1 es None = Some v)).
Proof.
  assert (Hstep : ~ 0.5 == 0) by (intros H; discriminate H).
  assert (Hdelay : 0 <= 0) by discriminate.
  split; [exact Hstep|]. split; [exact Hdelay|].
  split; [exact bench_failed_read_run|].
  exact (ramp_voltage_device_failure
           mock_psu mock_exec 1 0 1 0.5 0 (World (mock_failing 3) [])
           (DeviceError "VisaIOError") (snd bench_failed_read) None
           Hstep Hdelay bench_failed_read_run).
Defined.


Lemma bench_reset_run :
  reset_HEMT_settings mock_psu mock_exec PyNone (World mock_idle [])
  = (Return tt, snd bench_reset).
Proof. vm_compute. reflexivity. Qed.

Lemma reset_HEMT_settings_order_witness :
  reset_HEMT_settings mock_psu mock_exec PyNone (World mock_idle [])
  = (Return tt, snd bench_reset)
  /\ exists es,
      log (snd bench_reset) = [] ++ es
      /\ commands es
         = [set_overcurrent 1 0.005; set_overcurrent 2 0.05; get_output;
            set_channel_voltage 1 0; set_channel_voltage 2 0;
            get_channel_voltage 1; get_channel_voltage 2;
            set_output 1 true; set_output 2 true]
      /\ precedes reports_off enables_output es
      /\ precedes (accepts_zero 1) enables_output es
      /\ precedes (accepts_zero 2) enables_output es
      /\ precedes (reads_zero 1) enables_output es
      /\ precedes (reads_zero 2) enables_output es
      /\ precedes (enables 1) (enables 2) es
      /\ (exists e1 e2, In e1 es /\ enables 1 e1 /\ In e2 es /\ enables 2 e2).
Proof.
  split; [exact bench_reset_run|].
  exact (reset_HEMT_settings_order
           mock_psu mock_exec PyNone (World mock_idle []) (snd bench_reset)
           bench_reset_run).
Defined.

(** ** More about the setpoints *)

Lemma prefix_refl {A : Type} (l : list A) : prefix l l.
Proof. exists []. now rewrite app_nil_r. Qed.

Lemma prefix_app {A : Type} (l l1 l2 : list A) :
  prefix l1 l2 -> prefix (l ++ l1) (l ++ l2).
Proof. intros (rest & ->). exists rest. now rewrite app_assoc. Qed.

Lemma prefix_In {A : Type} (l1 l2 : list A) (x : A) :
  prefix l1 l2 -> In x l1 -> In x l2.
Proof. intros (rest & ->) H. apply in_or_app. now left. Qed.

Lemma commands_app (es1 es2 : list event) :
  commands (es1 ++ es2) = commands es1 ++ commands es2.
Proof.
  induction es1 as [|ev es1 IH]; simpl; [reflexivity|].
  destruct ev; simpl; now rewrite IH.
Qed.

Lemma commands_steps (channel : Z) (delay : Q) (steps : list step) :
  commands (flat_map (step_events channel delay) steps)
  = ramp_calls channel (map st_v steps).
Proof.
  induction steps as [|s steps IH]; simpl; [reflexivity|].
  now rewrite IH.
Qed.

Lemma ramp_calls_app (channel : Z) (vs1 vs2 : list Q) :
  ramp_calls channel (vs1 ++ vs2)
  = ramp_calls channel vs1 ++ ramp_calls channel vs2.
Proof. unfold ramp_calls. apply flat_map_app. Qed.

Lemma length_ramp_calls (channel : Z) (vs : list Q) :
  List.length (ramp_calls channel vs) = (2 * List.length vs)%nat.
Proof.
  induction vs as [|v vs IH]; [reflexivity|].
  change (ramp_calls channel (v :: vs))
    with (set_channel_voltage channel v
          :: get_channel_current channel :: ramp_calls channel vs).
  simpl List.length. rewrite IH. lia.
Qed.



Lemma last_step_voltage (steps : list step) (prev : option Q) :
  steps <> [] ->
  match rev steps with
  | [] => prev
  | s :: _ => Some (st_v s)
  end = Some (last (map st_v steps) 0).
Proof.
  intros Hne. destruct (exists_last Hne) as (steps' & s & ->).
  rewrite rev_app_distr, map_app. simpl. now rewrite last_last.
Qed.

(** ** Every execution of [ramp_voltage] *)

Section RampExecutions.

Variable D : Type.
Variable exec : D -> command -> (exn + pyval) * D.

(** Whatever the outcome, the driver calls made are an initial segment of
    the calls of the ramp, and all of them when the call returns. *)
Lemma ramp_voltage_execution (channel : Z) (v_start v_stop v_step delay : Q)
      (w : world D) o w' (vs : list Q) :
  ramp_setpoints v_start v_stop v_step = inr vs ->
  ramp_voltage D exec channel v_start v_stop v_step delay w = (o, w') ->
  exists es,
    log w' = log w ++ es /\
    answers exec (dev w) es (dev w') /\
    prefix (commands es) (ramp_calls channel vs) /\
    (forall data, o = Return data ->
                  commands es = ramp_calls channel vs /\ voltages data = vs).
Proof.
  intros Hvs H. destruct o as [data|e].
  - apply ramp_voltage_return in H.
    destruct H as (steps & Hs & Hd & Hl & Ha & _).
    assert (vs = map st_v steps) by congruence. subst vs.
    exists (flat_map (step_events channel delay) steps ++ [EvPrintNewline]).
    assert (Hc : commands (flat_map (step_events channel delay) steps
                           ++ [EvPrintNewline])
                 = ramp_calls channel (map st_v steps)).
    { rewrite commands_app, commands_steps. simpl. apply app_nil_r. }
    split; [exact Hl|]. split.
    { eapply answers_app; [exact Ha|]. reflexivity. }
    split; [rewrite Hc; apply prefix_refl|].
    intros data' E. inversion E; subst data'. split; [exact Hc|].
    rewrite Hd. apply voltages_step_points.
  - apply ramp_voltage_raise in H.
    destruct H as [[Hs _] | (steps & v & rest & tail & Hs & Hl & Ha & Ht)];
      [congruence|].
    assert (vs = map st_v steps ++ v :: rest) by congruence. subst vs.
    exists (flat_map (step_events channel delay) steps
            ++ EvPrintSetting channel v :: tail).
    split; [exact Hl|]. split; [exact Ha|].
    split; [|intros data E; discriminate E].
    rewrite commands_app, commands_steps, ramp_calls_app.
    apply prefix_app. simpl.
    destruct Ht as [-> | [(r & ->) | (r & cur & -> & _)]]; simpl.
    + now exists (get_channel_current channel :: ramp_calls channel rest).
    + now exists (ramp_calls channel rest).
    + now exists (ramp_calls channel rest).
Qed.


(** X2. In every execution the driver calls are an initial segment of
    write, read, write, read, ... over the setpoints in order; a call that
    returns has made all of them, two per recorded point, and never any
    other driver call. *)
Theorem ramp_voltage_call_sequence
        (channel : Z) (v_start v_stop v_step delay : Q)
        (w : world D) o w' (vs : list Q) :
  ramp_setpoints v_start v_stop v_step = inr vs ->
  ramp_voltage D exec channel v_start v_stop v_step delay w = (o, w') ->
  exists es,
    log w' = log w ++ es /\
    answers exec (dev w) es (dev w') /\
    prefix (commands es) (ramp_calls channel vs) /\
    (forall data, o = Return data ->
                  commands es = ramp_calls channel (voltages data) /\
                  List.length (commands es) = (2 * List.length data)%nat).
Proof.
  intros Hvs H.
  destruct (ramp_voltage_execution _ _ _ _ _ _ _ _ _ Hvs H)
    as (es & Hl & Ha & Hp & Hr).
  exists es. repeat split; try assumption.
  - destruct (Hr data H0) as [Hc Hv]. now rewrite Hv.
  - destruct (Hr data H0) as [Hc Hv]. rewrite Hc, <- Hv.
    rewrite length_ramp_calls. unfold voltages.
    now rewrite List.length_map.
Qed.


(** X4. With a negative [delay] a ramp never gets past its first setpoint:
    the call raises, after at most one write and one read; when the
    driver answers both, the error is the [ValueError] of [time.sleep] and
    the first setpoint stays commanded. *)
Theorem ramp_voltage_negative_delay
        (channel : Z) (v_start v_stop v_step delay : Q)
        (w : world D) o w' (v : Q) (rest : list Q) :
  delay < 0 ->
  ramp_setpoints v_start v_stop v_step = inr (v :: rest) ->
  ramp_voltage D exec channel v_start v_stop v_step delay w = (o, w') ->
  exists e tail,
    o = Raise e /\
    log w' = log w ++ EvPrintSetting channel v :: tail /\
    (tail = [EvCall (set_channel_voltage channel v) (inl e)]
     \/ (exists r,
           tail = [EvCall (set_channel_voltage channel v) (inr r);
                   EvCall (get_channel_current channel) (inl e)])
     \/ (exists r cur,
           tail = [EvCall (set_channel_voltage channel v) (inr r);
                   EvCall (get_channel_current channel) (inr cur)]
           /\ e = ValueError
           /\ last_commanded channel (EvPrintSetting channel v :: tail) None
              = Some v)).
Proof.
  intros Hneg Hvs H. unfold ramp_voltage, bind in H. rewrite Hvs in H.
  change (lift D (inr (v :: rest)) w) with (Return (v :: rest), w) in H.
  cbv beta iota in H. rewrite ramp_loop_cons in H.
  assert (Hd : Qle_bool 0 delay = false).
  { destruct (Qle_bool 0 delay) eqn:E; [|reflexivity].
    apply Qle_bool_iff in E. lra. }
  rewrite Hd in H.
  destruct (exec (dev w) (set_channel_voltage channel v)) as [[e|r] d1].
  { inversion H; subst. exists e. eexists. split; [reflexivity|].
    split; [reflexivity|]. now left. }
  destruct (exec d1 (get_channel_current channel)) as [[e|cur] d2].
  { inversion H; subst. exists e. eexists. split; [reflexivity|].
    split; [reflexivity|]. right. left. now exists r. }
  inversion H; subst. exists ValueError. eexists. split; [reflexivity|].
  split; [reflexivity|]. right. right. exists r, cur.
  split; [reflexivity|]. split; [reflexivity|].
  simpl. now rewrite Z.eqb_refl.
Qed.

(** X5. After a ramp that returned a non-empty sequence, the last voltage
    the driver accepted on the channel is the voltage of the last recorded
    point. *)
Theorem ramp_voltage_leaves_last_voltage
        (channel : Z) (v_start v_stop v_step delay : Q)
        (w : world D) data w' (prev : option Q) :
  data <> [] ->
  ramp_voltage D exec channel v_start v_stop v_step delay w
  = (Return data, w') ->
  exists es,
    log w' = log w ++ es /\
    last_commanded channel es prev = Some (last (voltages data) 0).
Proof.
  intros Hne H. apply ramp_voltage_return in H.
  destruct H as (steps & _ & Hd & Hl & _).
  exists (flat_map (step_events channel delay) steps ++ [EvPrintNewline]).
  split; [exact Hl|].
  assert (Hs : steps <> []) by (intros ->; now apply Hne).
  rewrite last_commanded_app, last_commanded_steps. simpl.
  rewrite (last_step_voltage steps prev Hs), Hd.
  now rewrite voltages_step_points.
Qed.

(** X6. On a device that never raises, and with a step that is not zero,
    [ramp_voltage] returns exactly when the delay is not negative or the
    ramp is empty. *)
Theorem ramp_voltage_returns_iff
        (channel : Z) (v_start v_stop v_step delay : Q) (w : world D) :
  reliable exec -> ~ v_step == 0 ->
  ((exists data w',
       ramp_voltage D exec channel v_start v_stop v_step delay w
       = (Return data, w'))
   <-> (0 <= delay \/ ramp_setpoints v_start v_stop v_step = inr [])).
Proof.
  intros Hrel Hstep. split.
  - intros (data & w' & H). apply ramp_voltage_return in H.
    destruct H as (steps & Hs & _ & _ & _ & Hdelay).
    destruct steps as [|s steps]; [now right|].
    left. apply Hdelay. discriminate.
  - intros [Hdelay | Hempty].
    + now apply ramp_voltage_total.
    + unfold ramp_voltage, bind. rewrite Hempty. simpl.
      unfold emit, ret. simpl. eauto.
Qed.

End RampExecutions.

(** ** [monitor_IV_curve] *)

Lemma Qlt_bool_iff (x y : Q) : Qlt_bool x y = true <-> x < y.
Proof.
  unfold Qlt_bool. split.
  - intros H. apply Qnot_le_lt. intros Hle.
    apply Qle_bool_iff in Hle. rewrite Hle in H. discriminate.
  - intros H. destruct (Qle_bool y x) eqn:E; [|reflexivity].
    apply Qle_bool_iff in E. lra.
Qed.

Section Monitor.

Variable D : Type.
Variable exec : D -> command -> (exn + pyval) * D.

(** The three ways a call of [monitor_IV_curve] can go: the first read
    raises, the second read raises, or both are answered and the result
    is computed from the answers. *)
Lemma monitor_IV_curve_run (ch : Z) (target : option Q) (tol : Q)
      (w : world D) o w' :
  monitor_IV_curve D exec ch target tol w = (o, w') ->
  (exists e d1,
      exec (dev w) (get_channel_current ch) = (inl e, d1)
      /\ o = Raise e
      /\ w' = World d1 (log w ++ [EvCall (get_channel_current ch) (inl e)]))
  \/ (exists cur d1 e d2,
         exec (dev w) (get_channel_current ch) = (inr cur, d1)
         /\ exec d1 (get_channel_voltage ch) = (inl e, d2)
         /\ o = Raise e
         /\ w' = World d2 (log w
                           ++ [EvCall (get_channel_current ch) (inr cur);
                               EvCall (get_channel_voltage ch) (inl e)]))
  \/ (exists cur d1 vol d2,
         exec (dev w) (get_channel_current ch) = (inr cur, d1)
         /\ exec d1 (get_channel_voltage ch) = (inr vol, d2)
         /\ w' = World d2 (log w
                           ++ [EvCall (get_channel_current ch) (inr cur);
                               EvCall (get_channel_voltage ch) (inr vol)])
         /\ o = match target with
                | None => Return (false, ([cur], [vol]))
                | Some t =>
                    match as_number "current" cur with
                    | inl e => Raise e
                    | inr c =>
                        Return (Qlt_bool (Qabs (c - t)) tol, ([cur], [vol]))
                    end
                end).
Proof.
  unfold monitor_IV_curve, bind, call. simpl. intros H.
  destruct (exec (dev w) (get_channel_current ch)) as [[e|cur] d1] eqn:E1;
    simpl in H.
  { left. exists e, d1. inversion H; subst. auto. }
  destruct (exec d1 (get_channel_voltage ch)) as [[e|vol] d2] eqn:E2;
    simpl in H.
  { right. left. exists cur, d1, e, d2. inversion H; subst.
    rewrite <- app_assoc. auto. }
  right. right. exists cur, d1, vol, d2.
  rewrite <- app_assoc in H. simpl in H.
  destruct target as [t|].
  - destruct (as_number "current" cur) as [e|c]; simpl in H.
    + unfold raise in H. inversion H; subst. auto.
    + match type of H with
      | (if ?b then _ else _) _ = _ => destruct b
      end; unfold ret in H; inversion H; subst; auto.
  - unfold ret in H. inversion H; subst. auto.
Qed.

(** X7. [monitor_IV_curve] only reads: in every execution its driver
    calls are an initial segment of the read of the current and the read
    of the voltage on [ch], so it never writes a voltage, a limit or an
    output state; a call that returns has made exactly these two reads. *)
Theorem monitor_IV_curve_only_reads (ch : Z) (target : option Q) (tol : Q)
        (w : world D) o w' :
  monitor_IV_curve D exec ch target tol w = (o, w') ->
  exists es,
    log w' = log w ++ es /\
    answers exec (dev w) es (dev w') /\
    prefix (commands es) [get_channel_current ch; get_channel_voltage ch] /\
    forallb is_read (commands es) = true /\
    (forall r, o = Return r ->
               commands es = [get_channel_current ch;
                              get_channel_voltage ch]).
Proof.
  intros H. apply monitor_IV_curve_run in H.
  destruct H as [(e & d1 & E1 & -> & ->)
                | [(cur & d1 & e & d2 & E1 & E2 & -> & ->)
                  | (cur & d1 & vol & d2 & E1 & E2 & -> & Ho)]];
    eexists; (split; [reflexivity|]); simpl.
  - split; [now exists d1|]. split; [now eexists|].
    split; [reflexivity|]. intros r Hr. discriminate.
  - split; [exists d1; split; [exact E1|]; now exists d2|].
    split; [now exists []|]. split; [reflexivity|].
    intros r Hr. discriminate.
  - split; [exists d1; split; [exact E1|]; now exists d2|].
    split; [now exists []|]. split; reflexivity.
Qed.


(** X9. Without a target, or with a tolerance that is not positive, the
    flag of a returning call is [False] whatever the supply reads. *)
Theorem monitor_IV_curve_never_true (ch : Z) (target : option Q) (tol : Q)
        (w : world D) flag lists w' :
  target = None \/ tol <= 0 ->
  monitor_IV_curve D exec ch target tol w = (Return (flag, lists), w') ->
  flag = false.
Proof.
  intros Hcase H. apply monitor_IV_curve_run in H.
  destruct H as [(e & d1 & _ & Ho & _)
                | [(cur & d1 & e & d2 & _ & _ & Ho & _)
                  | (cur & d1 & vol & d2 & _ & _ & _ & Ho)]];
    try discriminate.
  destruct target as [t|].
  - destruct Hcase as [Hn | Htol]; [discriminate|].
    destruct (as_number "current" cur) as [e|c]; [discriminate|].
    assert (Hf : Qlt_bool (Qabs (c - t)) tol = false).
    { destruct (Qlt_bool (Qabs (c - t)) tol) eqn:E; [|reflexivity].
      apply Qlt_bool_iff in E. pose proof (Qabs_nonneg (c - t)). lra. }
    injection Ho as Hflag _. rewrite Hflag. exact Hf.
  - now inversion Ho.
Qed.

(** X10. A call raises only when one of the two reads raises, and then
    that read is its last driver call, or when a target was given and the
    current read is not a number, and then both reads have been made. *)
Theorem monitor_IV_curve_failure (ch : Z) (target : option Q) (tol : Q)
        (w : world D) e w' :
  monitor_IV_curve D exec ch target tol w = (Raise e, w') ->
  log w' = log w ++ [EvCall (get_channel_current ch) (inl e)]
  \/ (exists cur,
         log w' = log w ++ [EvCall (get_channel_current ch) (inr cur);
                            EvCall (get_channel_voltage ch) (inl e)])
  \/ (exists cur vol t,
         log w' = log w ++ [EvCall (get_channel_current ch) (inr cur);
                            EvCall (get_channel_voltage ch) (inr vol)]
         /\ target = Some t
         /\ as_number "current" cur = inl e
         /\ e = TypeError (BadOperand "current")).
Proof.
  intros H. apply monitor_IV_curve_run in H.
  destruct H as [(e1 & d1 & _ & Ho & ->)
                | [(cur & d1 & e1 & d2 & _ & _ & Ho & ->)
                  | (cur & d1 & vol & d2 & _ & _ & -> & Ho)]].
  - inversion Ho; subst. now left.
  - inversion Ho; subst. right. left. now exists cur.
  - right. right. destruct target as [t|]; [|discriminate].
    destruct (as_number "current" cur) as [e1|c] eqn:Ec; [|discriminate].
    inversion Ho; subst. exists cur, vol, t.
    repeat split; try assumption.
    destruct cur; simpl in Ec; try discriminate; now inversion Ec.
Qed.

End Monitor.

(** ** Straight-line scripts *)

Lemma commands_answer_events (done : list (command * pyval)) :
  commands (map answer_event done) = map fst done.
Proof.
  induction done as [|cv done IH]; simpl; [reflexivity|]. now rewrite IH.
Qed.

Lemma passed_commands (done : list (command * pyval))
      (script : list (command * (pyval -> bool))) :
  passed done script -> map fst done = map fst script.
Proof.
  induction 1 as [|cv sc done script [Hc _] _ IH]; simpl; [reflexivity|].
  now rewrite Hc, IH.
Qed.

Lemma split_nth_error {A : Type} (l pre post : list A) (x : A) :
  l = pre ++ x :: post ->
  nth_error l (List.length pre) = Some x /\
  pre = firstn (List.length pre) l /\
  (List.length pre < List.length l)%nat.
Proof.
  intros ->. split; [|split].
  - rewrite nth_error_app2 by lia. now rewrite Nat.sub_diag.
  - rewrite firstn_app, Nat.sub_diag, firstn_all. simpl.
    now rewrite app_nil_r.
  - rewrite List.length_app. simpl. lia.
Qed.

Section Scripts.

Variable D : Type.
Variable exec : D -> command -> (exn + pyval) * D.

Lemma run_script_cons (c : command) (check : pyval -> bool)
      (rest : list (command * (pyval -> bool))) (w : world D) :
  run_script D exec ((c, check) :: rest) w =
  match exec (dev w) c with
  | (inl e, d1) => (Raise e, World d1 (log w ++ [EvCall c (inl e)]))
  | (inr v, d1) =>
      if check v
      then run_script D exec rest (World d1 (log w ++ [EvCall c (inr v)]))
      else (Raise AssertionError,
            World d1 (log w ++ [EvCall c (inr v)]))
  end.
Proof.
  simpl. unfold bind, call.
  destruct (exec (dev w) c) as [[e|v] d1]; simpl; [reflexivity|].
  unfold assert. destruct (check v); reflexivity.
Qed.

(** What a script leaves in the log.  Every logged call is the script's
    call at that position, and all calls before it were answered and
    passed their assertions; a script that returns has gone through all
    of its calls; one that raises has stopped at a call that raised or
    whose answer failed its assertion. *)
Lemma run_script_execution (script : list (command * (pyval -> bool))) :
  forall (w : world D) o w',
    run_script D exec script w = (o, w') ->
    exists es,
      log w' = log w ++ es /\
      answers exec (dev w) es (dev w') /\
      (forall l1 ev l2,
          es = l1 ++ ev :: l2 ->
          exists c r pre check post done,
            ev = EvCall c r /\
            script = pre ++ (c, check) :: post /\
            l1 = map answer_event done /\
            passed done pre) /\
      (o = Return tt ->
       exists done, es = map answer_event done /\ passed done script) /\
      (forall e,
          o = Raise e ->
          exists pre c check post done r,
            script = pre ++ (c, check) :: post /\
            es = map answer_event done ++ [EvCall c r] /\
            passed done pre /\
            (r = inl e
             \/ exists v, r = inr v /\ check v = false
                          /\ e = AssertionError)).
Proof.
  induction script as [|[c check] rest IH]; intros w o w' H.
  - simpl in H. unfold ret in H. inversion H; subst. exists [].
    rewrite app_nil_r. repeat split.
    + intros l1 ev l2 E. destruct l1; discriminate.
    + intros _. exists []. split; [reflexivity|constructor].
    + intros e E. discriminate.
  - rewrite run_script_cons in H.
    destruct (exec (dev w) c) as [[e0|v] d1] eqn:E1.
    { inversion H; subst. exists [EvCall c (inl e0)]. repeat split.
      - exists d1. now split.
      - intros l1 ev l2 E. destruct l1 as [|x l1].
        + inversion E; subst. exists c, (inl e0), [], check, rest, [].
          repeat split. constructor.
        + inversion E. destruct l1; discriminate.
      - intros E. discriminate.
      - intros e E. inversion E; subst.
        exists [], c, check, rest, [], (inl e). repeat split.
        + constructor.
        + now left. }
    destruct (check v) eqn:Ec.
    + apply IH in H. destruct H as (es & Hl & Ha & Hev & Hret & Hraise).
      simpl in Hl, Ha. exists (EvCall c (inr v) :: es). repeat split.
      * rewrite Hl, <- app_assoc. reflexivity.
      * exists d1. now split.
      * intros l1 ev l2 E. destruct l1 as [|x l1].
        -- inversion E; subst. exists c, (inr v), [], check, rest, [].
           repeat split. constructor.
        -- inversion E; subst.
           destruct (Hev l1 ev l2 eq_refl)
             as (c' & r & pre & check' & post & done & He & Hs & Hl1 & Hp).
           exists c', r, ((c, check) :: pre), check', post,
             ((c, v) :: done).
           subst. repeat split. constructor; [now split|exact Hp].
      * intros E. destruct (Hret E) as (done & -> & Hp).
        exists ((c, v) :: done). split; [reflexivity|].
        constructor; [now split|exact Hp].
      * intros e E.
        destruct (Hraise e E)
          as (pre & c' & check' & post & done & r & Hs & He & Hp & Hr).
        exists ((c, check) :: pre), c', check', post, ((c, v) :: done), r.
        subst. repeat split; [|exact Hr].
        constructor; [now split|exact Hp].
    + inversion H; subst. exists [EvCall c (inr v)]. repeat split.
      * exists d1. now split.
      * intros l1 ev l2 E. destruct l1 as [|x l1].
        -- inversion E; subst. exists c, (inr v), [], check, rest, [].
           repeat split. constructor.
        -- inversion E. destruct l1; discriminate.
      * intros E. discriminate.
      * intros e E. inversion E; subst.
        exists [], c, check, rest, [], (inr v). repeat split.
        -- constructor.
        -- right. now exists v.
Qed.

(** [reset_HEMT_settings] is its script. *)
Lemma reset_HEMT_settings_is_script (output : pyval) (w : world D) :
  reset_HEMT_settings D exec output w = run_script D exec reset_script w.
Proof.
  unfold reset_script. rewrite !run_script_cons.
  unfold reset_HEMT_settings, bind, call, assert, ret, raise, unchecked.
  simpl.
  repeat match goal with
         | |- context [exec ?d ?c] =>
             destruct (exec d c) as [[?|?] ?]; simpl; try reflexivity
         | |- context [if py_is_False ?v then _ else _] =>
             destruct (py_is_False v); simpl; try reflexivity
         | |- context [if py_eq_zero ?v then _ else _] =>
             destruct (py_eq_zero v); simpl; try reflexivity
         end.
Qed.

End Scripts.

(** ** Every execution of [reset_HEMT_settings] *)

Ltac invert_passed :=
  repeat match goal with
         | H : passed _ _ |- _ => unfold passed in H
         | H : Forall2 _ _ (_ :: _) |- _ => inversion H; clear H; subst
         | H : Forall2 _ _ [] |- _ => inversion H; clear H; subst
         | H : _ /\ _ |- _ => destruct H
         | cv : (command * pyval)%type |- _ => destruct cv; simpl in *
         end; subst.

Lemma py_is_False_true (v : pyval) : py_is_False v = true -> v = PyBool false.
Proof. destruct v as [|[|]| | |]; simpl; congruence. Qed.

(** In the script of the reset, what has been answered before a call that
    switches an output on. *)
Lemma reset_script_before_enable (ch : Z) (check : pyval -> bool)
      (pre post : list (command * (pyval -> bool)))
      (done : list (command * pyval)) :
  reset_script = pre ++ (set_output ch true, check) :: post ->
  passed done pre ->
  exists r1 r2 r3 r4 v1 v2 more,
    map answer_event done
    = [EvCall (set_overcurrent 1 0.005) (inr r1);
       EvCall (set_overcurrent 2 0.05) (inr r2);
       EvCall get_output (inr (PyBool false));
       EvCall (set_channel_voltage 1 0) (inr r3);
       EvCall (set_channel_voltage 2 0) (inr r4);
       EvCall (get_channel_voltage 1) (inr v1);
       EvCall (get_channel_voltage 2) (inr v2)] ++ more
    /\ py_eq_zero v1 = true /\ py_eq_zero v2 = true
    /\ ((ch = 1%Z /\ more = [])
        \/ (ch = 2%Z
            /\ exists r5, more = [EvCall (set_output 1 true) (inr r5)])).
Proof.
  intros Hs Hp. apply split_nth_error in Hs.
  destruct Hs as (Hn & Hpre & Hlt).
  remember (List.length pre) as i eqn:Hi. clear Hi.
  do 7 (destruct i as [|i]; [simpl in Hn; discriminate|]).
  destruct i as [|i]; [|destruct i as [|i]].
  - simpl in Hn, Hpre. inversion Hn; subst. invert_passed.
    match goal with
    | H : py_is_False _ = true |- _ => apply py_is_False_true in H; subst
    end.
    do 7 eexists. split; [reflexivity|]. repeat split; try assumption.
    now left.
  - simpl in Hn, Hpre. inversion Hn; subst. invert_passed.
    match goal with
    | H : py_is_False _ = true |- _ => apply py_is_False_true in H; subst
    end.
    do 7 eexists. split; [reflexivity|]. repeat split; try assumption.
    right. split; [reflexivity|]. now eexists.
  - simpl in Hlt. lia.
Qed.

Section ResetExecutions.

Variable D : Type.
Variable exec : D -> command -> (exn + pyval) * D.

(** X11. In every execution of [reset_HEMT_settings], returning or not,
    the driver calls are an initial segment of its nine calls in source
    order, and nothing else is printed or slept; in particular it never
    switches an output off and never commands a voltage other than 0. *)
Theorem reset_HEMT_settings_calls (output : pyval) (w : world D) o w' :
  reset_HEMT_settings D exec output w = (o, w') ->
  exists es,
    log w' = log w ++ es /\
    answers exec (dev w) es (dev w') /\
    List.length es = List.length (commands es) /\
    prefix (commands es)
           [set_overcurrent 1 0.005; set_overcurrent 2 0.05; get_output;
            set_channel_voltage 1 0; set_channel_voltage 2 0;
            get_channel_voltage 1; get_channel_voltage 2;
            set_output 1 true; set_output 2 true] /\
    (forall ch, ~ In (set_output ch false) (commands es)) /\
    (forall ch v, In (set_channel_voltage ch v) (commands es) -> v = 0).
Proof.
  rewrite reset_HEMT_settings_is_script. intros H.
  apply run_script_execution in H.
  destruct H as (es & Hl & Ha & _ & Hret & Hraise).
  exists es. split; [exact Hl|]. split; [exact Ha|].
  assert (Hes : List.length es = List.length (commands es)
                /\ prefix (commands es) (map fst reset_script)).
  { destruct o as [[]|e].
    - destruct (Hret eq_refl) as (done & -> & Hp).
      rewrite commands_answer_events, List.length_map, List.length_map.
      split; [reflexivity|].
      rewrite (passed_commands _ _ Hp). apply prefix_refl.
    - destruct (Hraise e eq_refl)
        as (pre & c & check & post & done & r & Hs & -> & Hp & _).
      rewrite commands_app, commands_answer_events.
      rewrite !List.length_app, !List.length_map. split; [reflexivity|].
      rewrite (passed_commands _ _ Hp), Hs, map_app. simpl.
      apply prefix_app. now exists (map fst post). }
  destruct Hes as [Hlen Hp]. split; [exact Hlen|]. split; [exact Hp|].
  split.
  - intros ch Hin. apply (prefix_In _ _ _ Hp) in Hin. simpl in Hin.
    repeat (destruct Hin as [Hin|Hin]; [discriminate|]). exact Hin.
  - intros ch v Hin. apply (prefix_In _ _ _ Hp) in Hin. simpl in Hin.
    repeat (destruct Hin as [Hin|Hin];
            [try discriminate; now inversion Hin|]).
    contradiction.
Qed.

(** X12. In every execution of [reset_HEMT_settings], also one that
    raises on the way, an output is switched on only after the supply has
    reported its output off, both channels have accepted 0 V and both
    have read back a voltage equal to 0; and the drain (channel 2) is
    switched on only after the driver accepted switching on the gate
    (channel 1). *)
Theorem reset_HEMT_settings_guarded (output : pyval) (w : world D) o w' :
  reset_HEMT_settings D exec output w = (o, w') ->
  exists es,
    log w' = log w ++ es /\
    precedes reports_off enables_output es /\
    precedes (accepts_zero 1) enables_output es /\
    precedes (accepts_zero 2) enables_output es /\
    precedes (reads_zero 1) enables_output es /\
    precedes (reads_zero 2) enables_output es /\
    precedes (enabled 1) (enables 2) es.
Proof.
  rewrite reset_HEMT_settings_is_script. intros H.
  apply run_script_execution in H.
  destruct H as (es & Hl & _ & Hev & _ & _).
  exists es. split; [exact Hl|].
  assert (Hbefore : forall l1 ev l2 ch,
             es = l1 ++ ev :: l2 -> enables ch ev ->
             exists r1 r2 r3 r4 v1 v2 more,
               l1 = [EvCall (set_overcurrent 1 0.005) (inr r1);
                     EvCall (set_overcurrent 2 0.05) (inr r2);
                     EvCall get_output (inr (PyBool false));
                     EvCall (set_channel_voltage 1 0) (inr r3);
                     EvCall (set_channel_voltage 2 0) (inr r4);
                     EvCall (get_channel_voltage 1) (inr v1);
                     EvCall (get_channel_voltage 2) (inr v2)] ++ more
               /\ py_eq_zero v1 = true /\ py_eq_zero v2 = true
               /\ ((ch = 1%Z /\ more = [])
                   \/ (ch = 2%Z
                       /\ exists r5,
                         more = [EvCall (set_output 1 true) (inr r5)]))).
  { intros l1 ev l2 ch E (r0 & He).
    destruct (Hev l1 ev l2 E)
      as (c & r & pre & check & post & done & He' & Hs & Hl1 & Hp).
    rewrite He in He'. inversion He'; subst c r.
    rewrite Hl1. exact (reset_script_before_enable _ _ _ _ _ Hs Hp). }
  repeat split; intros l1 ev l2 E Hen.
  1-5: destruct Hen as (ch & Hen);
    destruct (Hbefore l1 ev l2 ch E Hen)
      as (r1 & r2 & r3 & r4 & v1 & v2 & more & -> & Hz1 & Hz2 & _).
  - eexists. split; [right; right; left; reflexivity|reflexivity].
  - eexists. split; [do 3 right; left; reflexivity|]. now exists r3.
  - eexists. split; [do 4 right; left; reflexivity|]. now exists r4.
  - eexists. split; [do 5 right; left; reflexivity|]. now exists v1.
  - eexists. split; [do 6 right; left; reflexivity|]. now exists v2.
  - destruct (Hbefore l1 ev l2 2%Z E Hen)
      as (r1 & r2 & r3 & r4 & v1 & v2 & more & -> & _ & _ & Hmore).
    destruct Hmore as [[Hch _] | (_ & r5 & ->)]; [discriminate|].
    eexists. split; [do 7 right; left; reflexivity|]. now exists r5.
Qed.

(** X13. When [reset_HEMT_settings] raises, the last thing in its log is
    the driver call that raised, or the error is [AssertionError] and the
    last call is the read whose answer failed its assertion: the output
    state that was not [False], after the two limits only, or a voltage
    that did not read back as 0; in these three cases no output has been
    touched. *)
Theorem reset_HEMT_settings_failure (output : pyval) (w : world D) e w' :
  reset_HEMT_settings D exec output w = (Raise e, w') ->
  exists es,
    log w' = log w ++ es /\
    ((exists l1 c, es = l1 ++ [EvCall c (inl e)])
     \/ (e = AssertionError /\
         exists l1 c v,
           es = l1 ++ [EvCall c (inr v)] /\
           ((c = get_output /\ py_is_False v = false
             /\ commands es = [set_overcurrent 1 0.005;
                               set_overcurrent 2 0.05; get_output])
            \/ (c = get_channel_voltage 1 /\ py_eq_zero v = false
                /\ commands es = [set_overcurrent 1 0.005;
                                  set_overcurrent 2 0.05; get_output;
                                  set_channel_voltage 1 0;
                                  set_channel_voltage 2 0;
                                  get_channel_voltage 1])
            \/ (c = get_channel_voltage 2 /\ py_eq_zero v = false
                /\ commands es = [set_overcurrent 1 0.005;
                                  set_overcurrent 2 0.05; get_output;
                                  set_channel_voltage 1 0;
                                  set_channel_voltage 2 0;
                                  get_channel_voltage 1;
                                  get_channel_voltage 2])))).
Proof.
  rewrite reset_HEMT_settings_is_script. intros H.
  apply run_script_execution in H.
  destruct H as (es & Hl & _ & _ & _ & Hraise).
  exists es. split; [exact Hl|].
  destruct (Hraise e eq_refl)
    as (pre & c & check & post & done & r & Hs & -> & Hp & Hr).
  destruct Hr as [-> | (v & -> & Hc & ->)].
  { left. now exists (map answer_event done), c. }
  right. split; [reflexivity|].
  exists (map answer_event done), c, v. split; [reflexivity|].
  rewrite commands_app, commands_answer_events, (passed_commands _ _ Hp).
  apply split_nth_error in Hs. destruct Hs as (Hn & Hpre & Hlt).
  remember (List.length pre) as i eqn:Hi. clear Hi.
  destruct i as [|[|[|[|[|[|[|[|[|i]]]]]]]]];
    try (simpl in Hlt; lia);
    simpl in Hn, Hpre; inversion Hn; subst; try discriminate Hc.
  - left. auto.
  - right. left. auto.
  - right. right. auto.
Qed.

End ResetExecutions.

(** ** Calls of the cell's functions *)

Lemma mem_false (k : string) (ks : list string) :
  ~ In k ks -> mem k ks = false.
Proof.
  intros Hn. unfold mem. destruct (existsb (String.eqb k) ks) eqn:E;
    [|reflexivity].
  apply existsb_exists in E. destruct E as (x & Hx & Hk).
  apply String.eqb_eq in Hk. subst x. contradiction.
Qed.

Lemma bind_keywords_error (f : string) (names : list string)
      (kwargs : list (string * pyval)) :
  forall (bound : env) (e : exn),
    bind_keywords f names bound kwargs = inl e ->
    exists why, e = TypeError why.
Proof.
  induction kwargs as [|[k v] rest IH]; intros bound e H; simpl in H.
  - discriminate.
  - destruct (negb (mem k names)); [inversion H; eauto|].
    destruct (lookup k bound); [inversion H; eauto|].
    now apply IH in H.
Qed.

Lemma bind_args_error (sg : signature) (args : list pyval)
      (kwargs : list (string * pyval)) (e : exn) :
  bind_args sg args kwargs = inl e -> exists why, e = TypeError why.
Proof.
  unfold bind_args. intros H.
  destruct (bind_keywords (fn_name sg) (map fst (fn_params sg))
                          (combine (map fst (fn_params sg)) args) kwargs)
    as [e0|bound] eqn:Ek.
  - inversion H; subst. now apply bind_keywords_error in Ek.
  - destruct (List.length (map fst (fn_params sg)) <? List.length args)%nat;
      [inversion H; eauto|].
    destruct (fill_defaults (fn_params sg) bound) as [[|m ms] e1];
      [discriminate|inversion H; eauto].
Qed.

Lemma bind_keywords_unknown (f : string) (names : list string) (k : string)
      (kwargs : list (string * pyval)) :
  In k (map fst kwargs) -> mem k names = false ->
  forall bound, exists why,
      bind_keywords f names bound kwargs = inl (TypeError why).
Proof.
  intros Hin Hk.
  induction kwargs as [|[k0 v0] rest IH]; intros bound; simpl in *.
  - contradiction.
  - destruct (mem k0 names) eqn:E0; simpl; [|eauto].
    destruct (lookup k0 bound); [eauto|].
    apply IH. destruct Hin as [-> | Hin]; [congruence|exact Hin].
Qed.

Lemma bind_args_unknown (sg : signature) (args : list pyval)
      (kwargs : list (string * pyval)) (k : string) :
  In k (map fst kwargs) -> ~ In k (map fst (fn_params sg)) ->
  exists why, bind_args sg args kwargs = inl (TypeError why).
Proof.
  intros Hin Hk. unfold bind_args.
  destruct (bind_keywords_unknown (fn_name sg) (map fst (fn_params sg)) k
              kwargs Hin (mem_false _ _ Hk)
              (combine (map fst (fn_params sg)) args)) as (why & ->).
  eauto.
Qed.

Section Calls.

Variable D : Type.
Variable exec : D -> command -> (exn + pyval) * D.

(** X14. A call of [ramp_voltage] that gives the supply, the channel and
    the two bounds, by position or by the keywords [channel], [v_start],
    [v_stop], runs the ramp with a step of 0.01 and a delay of 1. *)
Theorem call_ramp_voltage_defaults
        (psu x_start x_stop : pyval) (channel : Z) (v_start v_stop : Q)
        (w : world D) :
  as_number "v_start" x_start = inr v_start ->
  as_number "v_stop" x_stop = inr v_stop ->
  call_ramp_voltage D exec [psu; PyInt channel; x_start; x_stop] [] w
  = ramp_voltage D exec channel v_start v_stop 0.01 1 w
  /\ call_ramp_voltage D exec [psu]
       [("channel", PyInt channel); ("v_start", x_start);
        ("v_stop", x_stop)] w
     = ramp_voltage D exec channel v_start v_stop 0.01 1 w.
Proof.
  intros Ha Hb.
  assert (E1 : bind_args sig_ramp_voltage
                         [psu; PyInt channel; x_start; x_stop] []
               = inr [("psu", psu); ("channel", PyInt channel);
                      ("v_start", x_start); ("v_stop", x_stop);
                      ("v_step", PyFloat 0.01); ("delay", PyInt 1)])
    by reflexivity.
  assert (E2 : bind_args sig_ramp_voltage [psu]
                         [("channel", PyInt channel); ("v_start", x_start);
                          ("v_stop", x_stop)]
               = inr [("psu", psu); ("channel", PyInt channel);
                      ("v_start", x_start); ("v_stop", x_stop);
                      ("v_step", PyFloat 0.01); ("delay", PyInt 1)])
    by reflexivity.
  unfold call_ramp_voltage, bind. rewrite E1, E2.
  cbn [lift ret raise arg lookup as_channel String.eqb Ascii.eqb Bool.eqb].
  rewrite Ha, Hb.
  cbn [lift ret raise as_number]. split; reflexivity.
Qed.

(** X15. A call of [ramp_voltage] or of [reset_HEMT_settings] that passes
    a keyword which is not one of the function's parameters raises
    [TypeError] and leaves the world as it was, whatever the other
    arguments are. *)
Theorem call_with_unknown_keyword
        (args : list pyval) (kwargs : list (string * pyval)) (k : string)
        (w : world D) :
  In k (map fst kwargs) ->
  (~ In k ["psu"; "channel"; "v_start"; "v_stop"; "v_step"; "delay"] ->
   exists why,
     call_ramp_voltage D exec args kwargs w = (Raise (TypeError why), w))
  /\ (~ In k ["HEMT_PSU"; "output"] ->
      exists why,
        call_reset_HEMT_settings D exec args kwargs w
        = (Raise (TypeError why), w)).
Proof.
  intros Hin. split; intros Hk.
  - destruct (bind_args_unknown sig_ramp_voltage args kwargs k Hin Hk)
      as (why & E).
    exists why. unfold call_ramp_voltage, bind. now rewrite E.
  - destruct (bind_args_unknown sig_reset_HEMT_settings args kwargs k Hin Hk)
      as (why & E).
    exists why. unfold call_reset_HEMT_settings, bind. now rewrite E.
Qed.

(** X16. No call of [turn_on_HEMTS] or [turn_off_HEMTS], whatever its
    arguments, makes a driver call: it raises [TypeError] when its own
    arguments do not bind, as in the two cells that call them without
    argument, and at its first statement otherwise. *)
Theorem call_turn_HEMTS_never_reaches_device
        (args : list pyval) (kwargs : list (string * pyval)) (w : world D) :
  (exists why,
      call_turn_on_HEMTS D exec args kwargs w = (Raise (TypeError why), w))
  /\ (exists why,
         call_turn_off_HEMTS D exec args kwargs w
         = (Raise (TypeError why), w))
  /\ call_turn_on_HEMTS D exec [] [] w
     = (Raise (TypeError (MissingArguments "turn_on_HEMTS" ["HEMT_PSU"])),
        w)
  /\ call_turn_off_HEMTS D exec [] [] w
     = (Raise (TypeError (MissingArguments "turn_off_HEMTS" ["HEMT_PSU"])),
        w).
Proof.
  split; [|split; [|split; reflexivity]].
  - unfold call_turn_on_HEMTS, bind.
    destruct (bind_args sig_turn_on_HEMTS args kwargs) as [e|en] eqn:E.
    + apply bind_args_error in E. destruct E as (why & ->).
      exists why. reflexivity.
    + simpl. unfold turn_on_HEMTS, call_reset_HEMT_settings, bind.
      rewrite reset_without_arguments. eexists. reflexivity.
  - unfold call_turn_off_HEMTS, bind.
    destruct (bind_args sig_turn_off_HEMTS args kwargs) as [e|en] eqn:E.
    + apply bind_args_error in E. destruct E as (why & ->).
      exists why. reflexivity.
    + simpl. unfold turn_off_HEMTS, call_ramp_voltage, bind.
      rewrite ramp_with_keyword_ch. eexists. reflexivity.
Qed.

End Calls.

(** ** The further theorems at work on the bench *)

Lemma bench_failed_read_any :
  ramp_voltage mock_psu mock_exec 1 0 1 0.5 0 (World (mock_failing 3) [])
  = (fst bench_failed_read, snd bench_failed_read).
Proof. vm_compute. reflexivity. Qed.


Lemma bench_setpoints : ramp_setpoints 0 1 0.5 = inr [0.0; 0.5; 1.0].
Proof. reflexivity. Qed.

Lemma ramp_voltage_call_sequence_witness :
  ramp_setpoints 0 1 0.5 = inr [0.0; 0.5; 1.0]
  /\ ramp_voltage mock_psu mock_exec 1 0 1 0.5 0 (World (mock_failing 3) [])
     = (fst bench_failed_read, snd bench_failed_read)
  /\ exists es,
      log (snd bench_failed_read) = [] ++ es
      /\ answers mock_exec (mock_failing 3) es (dev (snd bench_failed_read))
      /\ prefix (commands es) (ramp_calls 1 [0.0; 0.5; 1.0])
      /\ (forall data,
             fst bench_failed_read = Return data ->
             commands es = ramp_calls 1 (voltages data)
             /\ List.length (commands es) = (2 * List.length data)%nat).
Proof.
  split; [exact bench_setpoints|]. split; [exact bench_failed_read_any|].
  exact (ramp_voltage_call_sequence
           mock_psu mock_exec 1 0 1 0.5 0 (World (mock_failing 3) [])
           (fst bench_failed_read) (snd bench_failed_read) [0.0; 0.5; 1.0]
           bench_setpoints bench_failed_read_any).
Defined.

Lemma bench_down_run :
  ramp_voltage mock_psu mock_exec 1 1.0 0 0.5 0 (World mock_idle [])
  = (Return (data_of bench_down), snd bench_down).
Proof. vm_compute. reflexivity. Qed.


Lemma bench_negative_delay_run :
  ramp_voltage mock_psu mock_exec 1 0 1 0.5 (-1) (World mock_idle [])
  = (fst bench_negative_delay, snd bench_negative_delay).
Proof. vm_compute. reflexivity. Qed.

Lemma ramp_voltage_negative_delay_witness :
  -1 < 0
  /\ ramp_setpoints 0 1 0.5 = inr [0.0; 0.5; 1.0]
  /\ ramp_voltage mock_psu mock_exec 1 0 1 0.5 (-1) (World mock_idle [])
     = (fst bench_negative_delay, snd bench_negative_delay)
  /\ exists e tail,
      fst bench_negative_delay = Raise e
      /\ log (snd bench_negative_delay) = [] ++ EvPrintSetting 1 0.0 :: tail
      /\ (tail = [EvCall (set_channel_voltage 1 0.0) (inl e)]
          \/ (exists r,
                tail = [EvCall (set_channel_voltage 1 0.0) (inr r);
                        EvCall (get_channel_current 1) (inl e)])
          \/ (exists r cur,
                tail = [EvCall (set_channel_voltage 1 0.0) (inr r);
                        EvCall (get_channel_current 1) (inr cur)]
                /\ e = ValueError
                /\ last_commanded 1 (EvPrintSetting 1 0.0 :: tail) None
                   = Some 0.0)).
Proof.
  assert (Hneg : -1 < 0) by reflexivity.
  split; [exact Hneg|]. split; [exact bench_setpoints|].
  split; [exact bench_negative_delay_run|].
  exact (ramp_voltage_negative_delay
           mock_psu mock_exec 1 0 1 0.5 (-1) (World mock_idle [])
           (fst bench_negative_delay) (snd bench_negative_delay)
           0.0 [0.5; 1.0] Hneg bench_setpoints bench_negative_delay_run).
Defined.

Lemma ramp_voltage_leaves_last_voltage_witness :
  data_of bench_down <> []
  /\ ramp_voltage mock_psu mock_exec 1 1.0 0 0.5 0 (World mock_idle [])
     = (Return (data_of bench_down), snd bench_down)
  /\ exists es,
      log (snd bench_down) = [] ++ es
      /\ last_commanded 1 es None
         = Some (last (voltages (data_of bench_down)) 0).
Proof.
  assert (Hne : data_of bench_down <> []) by (vm_compute; discriminate).
  split; [exact Hne|]. split; [exact bench_down_run|].
  exact (ramp_voltage_leaves_last_voltage
           mock_psu mock_exec 1 1.0 0 0.5 0 (World mock_idle [])
           (data_of bench_down) (snd bench_down) None
           Hne bench_down_run).
Defined.

Lemma ramp_voltage_returns_iff_witness :
  reliable null_exec
  /\ ~ 0.01 == 0
  /\ ((exists data w',
          ramp_voltage unit null_exec 2 0.7 0 0.01 1 (World tt [])
          = (Return data, w'))
      <-> (0 <= 1 \/ ramp_setpoints 0.7 0 0.01 = inr [])).
Proof.
  assert (Hstep : ~ 0.01 == 0) by (intros H; discriminate H).
  split; [exact null_exec_reliable|]. split; [exact Hstep|].
  exact (ramp_voltage_returns_iff
           unit null_exec 2 0.7 0 0.01 1 (World tt [])
           null_exec_reliable Hstep).
Defined.

Lemma bench_monitor_run :
  monitor_IV_curve mock_psu mock_exec 1 (Some 0) 0.001 (World mock_idle [])
  = (Return (true, ([PyFloat 0.00], [PyFloat 0])), snd bench_monitor).
Proof. vm_compute. reflexivity. Qed.

Lemma monitor_IV_curve_only_reads_witness :
  monitor_IV_curve mock_psu mock_exec 1 (Some 0) 0.001 (World mock_idle [])
  = (Return (true, ([PyFloat 0.00], [PyFloat 0])), snd bench_monitor)
  /\ exists es,
      log (snd bench_monitor) = [] ++ es
      /\ answers mock_exec mock_idle es (dev (snd bench_monitor))
      /\ prefix (commands es) [get_channel_current 1; get_channel_voltage 1]
      /\ forallb is_read (commands es) = true
      /\ (forall r,
             Return (true, ([PyFloat 0.00], [PyFloat 0])) = Return r ->
             commands es = [get_channel_current 1; get_channel_voltage 1]).
Proof.
  split; [exact bench_monitor_run|].
  exact (monitor_IV_curve_only_reads
           mock_psu mock_exec 1 (Some 0) 0.001 (World mock_idle [])
           (Return (true, ([PyFloat 0.00], [PyFloat 0])))
           (snd bench_monitor) bench_monitor_run).
Defined.


Lemma bench_monitor_no_tolerance_run :
  monitor_IV_curve mock_psu mock_exec 1 (Some 0) 0 (World mock_idle [])
  = (Return (false, ([PyFloat 0.00], [PyFloat 0])), snd bench_monitor).
Proof. vm_compute. reflexivity. Qed.

Lemma monitor_IV_curve_never_true_witness :
  (Some 0 = None \/ 0 <= 0)
  /\ monitor_IV_curve mock_psu mock_exec 1 (Some 0) 0 (World mock_idle [])
     = (Return (false, ([PyFloat 0.00], [PyFloat 0])), snd bench_monitor)
  /\ false = false.
Proof.
  assert (Hcase : Some 0 = None \/ 0 <= 0) by (right; discriminate).
  split; [exact Hcase|]. split; [exact bench_monitor_no_tolerance_run|].
  exact (monitor_IV_curve_never_true
           mock_psu mock_exec 1 (Some 0) 0 (World mock_idle [])
           false ([PyFloat 0.00], [PyFloat 0]) (snd bench_monitor)
           Hcase bench_monitor_no_tolerance_run).
Defined.

Lemma bench_monitor_none_run :
  monitor_IV_curve unit null_exec 1 (Some 0) 0.001 (World tt [])
  = (Raise (TypeError (BadOperand "current")), snd bench_monitor_none).
Proof. vm_compute. reflexivity. Qed.

Lemma monitor_IV_curve_failure_witness :
  monitor_IV_curve unit null_exec 1 (Some 0) 0.001 (World tt [])
  = (Raise (TypeError (BadOperand "current")), snd bench_monitor_none)
  /\ (log (snd bench_monitor_none)
      = [] ++ [EvCall (get_channel_current 1)
                      (inl (TypeError (BadOperand "current")))]
      \/ (exists cur,
             log (snd bench_monitor_none)
             = [] ++ [EvCall (get_channel_current 1) (inr cur);
                      EvCall (get_channel_voltage 1)
                             (inl (TypeError (BadOperand "current")))])
      \/ (exists cur vol t,
             log (snd bench_monitor_none)
             = [] ++ [EvCall (get_channel_current 1) (inr cur);
                      EvCall (get_channel_voltage 1) (inr vol)]
             /\ Some 0 = Some t
             /\ as_number "current" cur
                = inl (TypeError (BadOperand "current"))
             /\ TypeError (BadOperand "current")
                = TypeError (BadOperand "current"))).
Proof.
  split; [exact bench_monitor_none_run|].
  exact (monitor_IV_curve_failure
           unit null_exec 1 (Some 0) 0.001 (World tt [])
           (TypeError (BadOperand "current")) (snd bench_monitor_none)
           bench_monitor_none_run).
Defined.

Lemma bench_reset_on_run :
  reset_HEMT_settings mock_psu mock_exec PyNone
                      (World (MockPSU 0 0 true 0 None) [])
  = (Raise AssertionError, snd bench_reset_on).
Proof. vm_compute. reflexivity. Qed.

Lemma reset_HEMT_settings_calls_witness :
  reset_HEMT_settings mock_psu mock_exec PyNone
                      (World (MockPSU 0 0 true 0 None) [])
  = (Raise AssertionError, snd bench_reset_on)
  /\ exists es,
      log (snd bench_reset_on) = [] ++ es
      /\ answers mock_exec (MockPSU 0 0 true 0 None) es
                 (dev (snd bench_reset_on))
      /\ List.length es = List.length (commands es)
      /\ prefix (commands es)
                [set_overcurrent 1 0.005; set_overcurrent 2 0.05;
                 get_output;
                 set_channel_voltage 1 0; set_channel_voltage 2 0;
                 get_channel_voltage 1; get_channel_voltage 2;
                 set_output 1 true; set_output 2 true]
      /\ (forall ch, ~ In (set_output ch false) (commands es))
      /\ (forall ch v, In (set_channel_voltage ch v) (commands es) -> v = 0).
Proof.
  split; [exact bench_reset_on_run|].
  exact (reset_HEMT_settings_calls
           mock_psu mock_exec PyNone (World (MockPSU 0 0 true 0 None) [])
           (Raise AssertionError) (snd bench_reset_on) bench_reset_on_run).
Defined.

Lemma reset_HEMT_settings_guarded_witness :
  reset_HEMT_settings mock_psu mock_exec PyNone (World mock_idle [])
  = (Return tt, snd bench_reset)
  /\ exists es,
      log (snd bench_reset) = [] ++ es
      /\ precedes reports_off enables_output es
      /\ precedes (accepts_zero 1) enables_output es
      /\ precedes (accepts_zero 2) enables_output es
      /\ precedes (reads_zero 1) enables_output es
      /\ precedes (reads_zero 2) enables_output es
      /\ precedes (enabled 1) (enables 2) es.
Proof.
  split; [exact bench_reset_run|].
  exact (reset_HEMT_settings_guarded
           mock_psu mock_exec PyNone (World mock_idle [])
           (Return tt) (snd bench_reset) bench_reset_run).
Defined.

Lemma reset_HEMT_settings_failure_witness :
  reset_HEMT_settings mock_psu mock_exec PyNone
                      (World (MockPSU 0 0 true 0 None) [])
  = (Raise AssertionError, snd bench_reset_on)
  /\ exists es,
      log (snd bench_reset_on) = [] ++ es
      /\ ((exists l1 c, es = l1 ++ [EvCall c (inl AssertionError)])
          \/ (AssertionError = AssertionError /\
              exists l1 c v,
                es = l1 ++ [EvCall c (inr v)] /\
                ((c = get_output /\ py_is_False v = false
                  /\ commands es = [set_overcurrent 1 0.005;
                                    set_overcurrent 2 0.05; get_output])
                 \/ (c = get_channel_voltage 1 /\ py_eq_zero v = false
                     /\ commands es = [set_overcurrent 1 0.005;
                                       set_overcurrent 2 0.05; get_output;
                                       set_channel_voltage 1 0;
                                       set_channel_voltage 2 0;
                                       get_channel_voltage 1])
                 \/ (c = get_channel_voltage 2 /\ py_eq_zero v = false
                     /\ commands es = [set_overcurrent 1 0.005;
                                       set_overcurrent 2 0.05; get_output;
                                       set_channel_voltage 1 0;
                                       set_channel_voltage 2 0;
                                       get_channel_voltage 1;
                                       get_channel_voltage 2])))).
Proof.
  split; [exact bench_reset_on_run|].
  exact (reset_HEMT_settings_failure
           mock_psu mock_exec PyNone (World (MockPSU 0 0 true 0 None) [])
           AssertionError (snd bench_reset_on) bench_reset_on_run).
Defined.

Lemma call_ramp_voltage_defaults_witness :
  as_number "v_start" (PyInt 0) = inr 0
  /\ as_number "v_stop" (PyFloat 1.1) = inr 1.1
  /\ call_ramp_voltage mock_psu mock_exec
       [PyDevice; PyInt 1; PyInt 0; PyFloat 1.1] [] (World mock_idle [])
     = ramp_voltage mock_psu mock_exec 1 0 1.1 0.01 1 (World mock_idle [])
  /\ call_ramp_voltage mock_psu mock_exec [PyDevice]
       [("channel", PyInt 1); ("v_start", PyInt 0);
        ("v_stop", PyFloat 1.1)] (World mock_idle [])
     = ramp_voltage mock_psu mock_exec 1 0 1.1 0.01 1 (World mock_idle []).
Proof.
  assert (Ha : as_number "v_start" (PyInt 0) = inr 0) by reflexivity.
  assert (Hb : as_number "v_stop" (PyFloat 1.1) = inr 1.1) by reflexivity.
  split; [exact Ha|]. split; [exact Hb|].
  exact (call_ramp_voltage_defaults
           mock_psu mock_exec PyDevice (PyInt 0) (PyFloat 1.1) 1 0 1.1
           (World mock_idle []) Ha Hb).
Defined.

Lemma call_with_unknown_keyword_witness :
  In "ch" (map fst [("ch", PyInt 1); ("v_start", PyInt 0);
                    ("v_stop", PyFloat 1.1)])
  /\ ~ In "ch" ["psu"; "channel"; "v_start"; "v_stop"; "v_step"; "delay"]
  /\ exists why,
      call_ramp_voltage mock_psu mock_exec [PyDevice]
        [("ch", PyInt 1); ("v_start", PyInt 0); ("v_stop", PyFloat 1.1)]
        (World mock_idle [])
      = (Raise (TypeError why), World mock_idle []).
Proof.
  assert (Hin : In "ch" (map fst [("ch", PyInt 1); ("v_start", PyInt 0);
                                  ("v_stop", PyFloat 1.1)]))
    by (left; reflexivity).
  assert (Hk : ~ In "ch" ["psu"; "channel"; "v_start"; "v_stop";
                          "v_step"; "delay"]).
  { simpl. intros H.
    repeat (destruct H as [H|H]; [discriminate H|]). exact H. }
  split; [exact Hin|]. split; [exact Hk|].
  exact (proj1 (call_with_unknown_keyword
                  mock_psu mock_exec [PyDevice]
                  [("ch", PyInt 1); ("v_start", PyInt 0);
                   ("v_stop", PyFloat 1.1)] "ch" (World mock_idle []) Hin)
               Hk).
Defined.
